(** * A command-line calculator: operations, calculations, history, REPL

    Shallow embedding of the Python package [app] (modules
    [app.operation.operations], [app.calculation.calculation] and
    [app.calculator.calculator]) and the properties its specification
    states about it.

    Conventions of the embedding.
    - A Python [str] is a [string]; one [ascii] stands for one code point
      below 256 (the Latin-1 range), which is where [str.strip],
      [str.split] and [str.lower] are written out.
    - A Python [float] is an IEEE-754 binary64 value, [spec_float] with
      precision 53 and maximal exponent 1024.
    - A raised exception is a value of [exn]; a call that may raise returns
      an [outcome].
    - Objects that are shared and mutated (the history's list, the
      [Calculation] instances it holds) live in a [store] and are named by
      their address. *)

From Stdlib Require Import ZArith Ascii List Bool Lia DecimalString.
From Stdlib Require String.
From Corelib Require Import SpecFloat.
From stdpp Require Import base option list strings gmap.

Set Warnings "-register-all".
Local Open Scope Z_scope.

(** ** Exceptions and results *)

Inductive exn : Type :=
| TypeError (msg : string)
| ValueError (msg : string)
| ZeroDivisionError (msg : string)
| OverflowError (msg : string)
| AttributeError (msg : string)
| KeyError (key : string)
| IndexError (msg : string)
| SystemError (msg : string).

Inductive outcome (A : Type) : Type :=
| Return (a : A)
| Raise (e : exn).
Arguments Return {A} a.
Arguments Raise {A} e.

(** Sequencing: the first exception raised is the one that propagates. *)
Global Instance outcome_bind : MBind outcome := fun A B k r =>
  match r with
  | Return a => k a
  | Raise e => Raise e
  end.

(** ** Strings: the [str] methods the program calls *)

Module Str.

Definition code (c : ascii) : N := N_of_ascii c.

(** [str.isspace] on one code point below 256: TAB..CR, FS..US, SPACE,
    NEL (0x85) and NBSP (0xA0). *)
Definition isspace (c : ascii) : bool :=
  let n := code c in
  (((9 <=? n) && (n <=? 13)) || ((28 <=? n) && (n <=? 32))
   || (n =? 133) || (n =? 160))%N.

(** [str.lower] on one code point below 256: A..Z and the Latin-1 capitals
    (0xC0..0xDE without the multiplication sign 0xD7) move up by 32. *)
Definition lower_char (c : ascii) : ascii :=
  let n := code c in
  if (((65 <=? n) && (n <=? 90))
      || ((192 <=? n) && (n <=? 222) && negb (n =? 215)))%N
  then ascii_of_N (n + 32) else c.

Fixpoint lower (s : string) : string :=
  match s with
  | EmptyString => EmptyString
  | String c s' => String (lower_char c) (lower s')
  end.

Fixpoint lstrip (s : string) : string :=
  match s with
  | EmptyString => EmptyString
  | String c s' => if isspace c then lstrip s' else s
  end.

Fixpoint rstrip (s : string) : string :=
  match s with
  | EmptyString => EmptyString
  | String c s' =>
      match rstrip s' with
      | EmptyString => if isspace c then EmptyString else String c EmptyString
      | r => String c r
      end
  end.

(** [s.strip()] *)
Definition strip (s : string) : string := rstrip (lstrip s).

(** [s.split()] with no separator: the maximal runs of non-whitespace, in
    order; [w] is the run being read. *)
Fixpoint split_from (w : string) (s : string) : list string :=
  match s with
  | EmptyString => match w with EmptyString => [] | _ => [w] end
  | String c s' =>
      if isspace c
      then match w with
           | EmptyString => split_from EmptyString s'
           | _ => w :: split_from EmptyString s'
           end
      else split_from (w +:+ String c EmptyString) s'
  end.

Definition split (s : string) : list string := split_from EmptyString s.

(** Does [s] hold a whitespace character? *)
Fixpoint has_space (s : string) : bool :=
  match s with
  | EmptyString => false
  | String c s' => isspace c || has_space s'
  end.

(** [sep.join(xs)] *)
Fixpoint join (sep : string) (xs : list string) : string :=
  match xs with
  | [] => EmptyString
  | [x] => x
  | x :: rest => x +:+ sep +:+ join sep rest
  end.

(** [c * n] for a one-character string [c] *)
Fixpoint repeat (c : ascii) (n : nat) : string :=
  match n with
  | O => EmptyString
  | S n' => String c (repeat c n')
  end.

(** Order of [str]: lexicographic on code points. *)
Fixpoint leb (s t : string) : bool :=
  match s, t with
  | EmptyString, _ => true
  | String _ _, EmptyString => false
  | String a s', String b t' =>
      if (code a <? code b)%N then true
      else if (code b <? code a)%N then false
      else leb s' t'
  end.

Fixpoint insert_sorted (x : string) (xs : list string) : list string :=
  match xs with
  | [] => [x]
  | y :: ys => if leb x y then x :: xs else y :: insert_sorted x ys
  end.

(** [sorted(xs)] for a list of [str] *)
Definition sorted (xs : list string) : list string :=
  foldr insert_sorted [] xs.

(** [f"{i:2d}"] for a non-negative [int]: decimal, right-aligned in two
    columns. *)
Definition format_2d (i : nat) : string :=
  let d := NilZero.string_of_uint (Nat.to_uint i) in
  if (String.length d <? 2)%nat then " " +:+ d else d.

(** Is [s] made of whitespace only? *)
Fixpoint all_space (s : string) : bool :=
  match s with
  | EmptyString => true
  | String c s' => isspace c && all_space s'
  end.

(** Does [s] begin with a character that is not whitespace, if it begins
    at all? *)
Definition starts_clean (s : string) : bool :=
  match s with
  | EmptyString => true
  | String c _ => negb (isspace c)
  end.

End Str.

(** ** Floats *)

Definition float : Type := spec_float.

Module Float.

Definition prec : Z := 53.
Definition emax : Z := 1024.

Definition zero : float := S754_zero false.
Definition one : float := S754_finite false 4503599627370496 (-52).
Definition inf : float := S754_infinity false.
Definition neg_inf : float := S754_infinity true.

(** [a == b] and [a != b] on floats *)
Definition eqb (a b : float) : bool := SFeqb a b.
Definition neqb (a b : float) : bool := negb (SFeqb a b).

Definition add : float -> float -> float := SFadd prec emax.
Definition sub : float -> float -> float := SFsub prec emax.
Definition mul : float -> float -> float := SFmul prec emax.

(** [a / b] on floats: Python raises where IEEE-754 would return an
    infinity or a NaN for a zero divisor. *)
Definition truediv (a b : float) : outcome float :=
  if eqb b zero then Raise (ZeroDivisionError "float division by zero")
  else Return (SFdiv prec emax a b).

(** [float(z)] for an [int]: the nearest float, ties to even; an [int]
    beyond the largest finite float raises. *)
Definition of_int (z : Z) : outcome float :=
  match binary_normalize prec emax z 0 false with
  | S754_infinity _ => Raise (OverflowError "int too large to convert to float")
  | f => Return f
  end.

Definition is_finite (f : float) : bool :=
  match f with
  | S754_zero _ | S754_finite _ _ _ => true
  | S754_infinity _ | S754_nan => false
  end.

End Float.

(** ** Python values

    What a dynamically typed argument can be: the factory receives its
    operands and its operation as [Any], and the history receives its
    entry as [Any]. *)

Definition loc : Type := positive.

(** An instance of a class that may or may not define the two members the
    factory probes for. *)
Record pyobject : Type := {
  class_name : string;
  attr_symbol : option string;
  attr_compute : option (float -> float -> outcome float)
}.

Inductive pyval : Type :=
| PNone
| PBool (b : bool)
| PInt (z : Z)
| PFloat (f : float)
| PStr (s : string)
| PList (xs : list pyval)
| PObject (o : pyobject)
| PCalculation (l : loc).

(** [type(v).__name__] *)
Definition type_name (v : pyval) : string :=
  match v with
  | PNone => "NoneType"
  | PBool _ => "bool"
  | PInt _ => "int"
  | PFloat _ => "float"
  | PStr _ => "str"
  | PList _ => "list"
  | PObject o => class_name o
  | PCalculation _ => "Calculation"
  end.

(** [isinstance(v, (int, float))]; [bool] is a subclass of [int]. *)
Definition is_int_or_float (v : pyval) : bool :=
  match v with
  | PBool _ | PInt _ | PFloat _ => true
  | _ => false
  end.

(** [float(v)] for a value that passed [is_int_or_float] *)
Definition to_float (v : pyval) : outcome float :=
  match v with
  | PBool b => Float.of_int (if b then 1 else 0)
  | PInt z => Float.of_int z
  | PFloat f => Return f
  | _ => Raise (TypeError ("float() argument must be a string or a real number, not '"
                           +:+ type_name v +:+ "'"))
  end.

(** [hasattr(v, 'compute')] and [hasattr(v, 'symbol')], and the attribute
    reads themselves. *)
Definition get_compute (v : pyval) : option (float -> float -> outcome float) :=
  match v with
  | PObject o => attr_compute o
  | _ => None
  end.

Definition get_symbol (v : pyval) : option string :=
  match v with
  | PObject o => attr_symbol o
  | _ => None
  end.

Definition no_attribute (v : pyval) (name : string) : exn :=
  AttributeError ("'" +:+ type_name v +:+ "' object has no attribute '" +:+ name +:+ "'").

(** ** app.operation.operations *)

Inductive Operation : Type := Addition | Subtraction | Multiplication | Division.

Module Operations.

Definition symbol (op : Operation) : string :=
  match op with
  | Addition => "+"
  | Subtraction => "-"
  | Multiplication => "*"
  | Division => "/"
  end.

Definition Addition_compute (operand_a operand_b : float) : outcome float :=
  Return (Float.add operand_a operand_b).

Definition Subtraction_compute (operand_a operand_b : float) : outcome float :=
  Return (Float.sub operand_a operand_b).

Definition Multiplication_compute (operand_a operand_b : float) : outcome float :=
  Return (Float.mul operand_a operand_b).

(** [try: return a / b  except ZeroDivisionError: raise
    ZeroDivisionError("Cannot divide by zero")] *)
Definition Division_compute (operand_a operand_b : float) : outcome float :=
  match Float.truediv operand_a operand_b with
  | Raise (ZeroDivisionError _) => Raise (ZeroDivisionError "Cannot divide by zero")
  | r => r
  end.

Definition compute (op : Operation) : float -> float -> outcome float :=
  match op with
  | Addition => Addition_compute
  | Subtraction => Subtraction_compute
  | Multiplication => Multiplication_compute
  | Division => Division_compute
  end.

Definition name (op : Operation) : string :=
  match op with
  | Addition => "Addition"
  | Subtraction => "Subtraction"
  | Multiplication => "Multiplication"
  | Division => "Division"
  end.

(** The singleton instance of an operation class, as a Python value. *)
Definition instance (op : Operation) : pyval :=
  PObject {| class_name := name op;
             attr_symbol := Some (symbol op);
             attr_compute := Some (compute op) |}.

(** The registry, a dict literal: keys in insertion order. *)
Definition OPERATIONS : list (string * Operation) :=
  [ ("+", Addition); ("add", Addition); ("addition", Addition);
    ("-", Subtraction); ("sub", Subtraction); ("subtract", Subtraction);
    ("subtraction", Subtraction);
    ("*", Multiplication); ("mul", Multiplication); ("multiply", Multiplication);
    ("multiplication", Multiplication);
    ("/", Division); ("div", Division); ("divide", Division);
    ("division", Division) ].

(** [d.get(k)]: [None] where [d[k]] raises [KeyError]. *)
Fixpoint dict_get {V : Type} (d : list (string * V)) (k : string) : option V :=
  match d with
  | [] => None
  | (k', v) :: d' => if String.eqb k' k then Some v else dict_get d' k
  end.

(** [k in d] *)
Definition dict_mem {V : Type} (d : list (string * V)) (k : string) : bool :=
  match dict_get d k with Some _ => true | None => false end.

Definition keys {V : Type} (d : list (string * V)) : list string := map fst d.

#[export] Instance Operation_eq_dec : EqDecision Operation.
Proof. solve_decision. Defined.

(** The keys of the registry that are bound to the instance [op]. *)
Definition aliases (op : Operation) : list string :=
  keys (filter (fun kv => kv.2 = op) OPERATIONS).

End Operations.

(** ** app.calculation.calculation *)

Record Calculation : Type := {
  operand_a : float;
  operand_b : float;
  operation : pyval;
  _result : option float
}.

Module Calc.

Definition set_result (c : Calculation) (r : option float) : Calculation :=
  {| operand_a := operand_a c; operand_b := operand_b c;
     operation := operation c; _result := r |}.

Definition set_operation (c : Calculation) (op : pyval) : Calculation :=
  {| operand_a := operand_a c; operand_b := operand_b c;
     operation := op; _result := _result c |}.

(** The [result] property: returns the value read and the object as the
    read leaves it. *)
Definition result (c : Calculation) : outcome float * Calculation :=
  match _result c with
  | Some r => (Return r, c)
  | None =>
      match get_compute (operation c) with
      | None => (Raise (no_attribute (operation c) "compute"), c)
      | Some f =>
          match f (operand_a c) (operand_b c) with
          | Return r => (Return r, set_result c (Some r))
          | Raise e => (Raise e, c)
          end
      end
  end.

End Calc.

(** What a client can do to a calculation it holds: read [result], or
    assign another object to [operation]. *)
Inductive action : Type :=
| ReadResult
| SetOperation (op : pyval).

(** Runs the actions in order; the list holds what each read returned. *)
Fixpoint perform (acts : list action) (c : Calculation)
    : list (outcome float) * Calculation :=
  match acts with
  | [] => ([], c)
  | ReadResult :: rest =>
      let '(r, c') := Calc.result c in
      let '(rs, c'') := perform rest c' in (r :: rs, c'')
  | SetOperation op :: rest => perform rest (Calc.set_operation c op)
  end.

(** ** The store

    [Calculation] instances and list objects are shared by reference:
    the store maps an address to the object's current state.  Every
    address that a live object holds is allocated; a read of an address
    that is not ([SystemError] below) is reached from no well-formed
    store. *)

Record store : Type := {
  calcs : gmap loc Calculation;
  lists : gmap loc (list loc)
}.

Module Store.

Definition empty : store := {| calcs := ∅; lists := ∅ |}.

Definition set_calc (σ : store) (l : loc) (c : Calculation) : store :=
  {| calcs := <[l := c]> (calcs σ); lists := lists σ |}.

Definition set_list (σ : store) (l : loc) (xs : list loc) : store :=
  {| calcs := calcs σ; lists := <[l := xs]> (lists σ) |}.

(** A new [Calculation] object holding [c]. *)
Definition alloc_calc (σ : store) (c : Calculation) : loc * store :=
  let l := fresh (dom (calcs σ)) in (l, set_calc σ l c).

(** A new list object holding [xs]. *)
Definition alloc_list (σ : store) (xs : list loc) : loc * store :=
  let l := fresh (dom (lists σ)) in (l, set_list σ l xs).

Definition list_at (σ : store) (l : loc) : list loc :=
  default [] (lists σ !! l).

Definition dangling : exn := SystemError "dangling reference".

End Store.

(** ** app.calculator.calculator: CalculationHistory *)

Record CalculationHistory : Type := { _history : loc }.

Module History.

(** [CalculationHistory()] *)
Definition __init__ (σ : store) : CalculationHistory * store :=
  let '(l, σ') := Store.alloc_list σ [] in ({| _history := l |}, σ').

(** [isinstance(v, Calculation)] *)
Definition is_Calculation (v : pyval) : bool :=
  match v with PCalculation _ => true | _ => false end.

Definition add_calculation (self : CalculationHistory) (calculation : pyval)
    (σ : store) : outcome () * store :=
  match calculation with
  | PCalculation l =>
      (Return (), Store.set_list σ (_history self)
                    (Store.list_at σ (_history self) ++ [l]))
  | _ => (Raise (TypeError "Must provide a Calculation instance"), σ)
  end.

(** Returns the address of the copy. *)
Definition get_history (self : CalculationHistory) (σ : store) : loc * store :=
  Store.alloc_list σ (Store.list_at σ (_history self)).

Definition get_last_calculation (self : CalculationHistory) (σ : store) : option loc :=
  last (Store.list_at σ (_history self)).

Definition clear_history (self : CalculationHistory) (σ : store) : store :=
  Store.set_list σ (_history self) [].

(** [len(history)] and [bool(history)] *)
Definition __len__ (self : CalculationHistory) (σ : store) : nat :=
  length (Store.list_at σ (_history self)).

Definition __bool__ (self : CalculationHistory) (σ : store) : bool :=
  match Store.list_at σ (_history self) with [] => false | _ => true end.

(** [for v in vs: self.add_calculation(v)]; meant for values that are
    accepted (a refused value leaves the store as it is). *)
Fixpoint add_all (self : CalculationHistory) (vs : list pyval) (σ : store) : store :=
  match vs with
  | [] => σ
  | v :: rest => add_all self rest (add_calculation self v σ).2
  end.

End History.

(** ** Built-in conversions

    Three functions of the Python runtime that the program calls and does
    not define: [float(s)] on a [str] ([None] where it raises
    [ValueError]), [str(x)] on a [float], and [repr(s)] on a [str]. *)

Class Builtins : Type := {
  float_of_str : string -> option float;
  str_of_float : float -> string;
  repr_of_str : string -> string
}.

Definition nl : string := String (ascii_of_N 10) EmptyString.

Section Program.
Context `{Builtins}.

(** [str(e)] for an exception *)
Definition exn_str (e : exn) : string :=
  match e with
  | TypeError msg | ValueError msg | ZeroDivisionError msg | OverflowError msg
  | AttributeError msg | IndexError msg | SystemError msg => msg
  | KeyError key => repr_of_str key
  end.

(** *** Calculation.__str__ and CalculationFactory *)

(** [f"{self.operand_a} {self.operation.symbol} {self.operand_b} = {self.result}"] *)
Definition Calculation_str (c : Calculation) : outcome string * Calculation :=
  match get_symbol (operation c) with
  | None => (Raise (no_attribute (operation c) "symbol"), c)
  | Some sym =>
      match Calc.result c with
      | (Return r, c') =>
          (Return (str_of_float (operand_a c) +:+ " " +:+ sym +:+ " "
                   +:+ str_of_float (operand_b c) +:+ " = " +:+ str_of_float r), c')
      | (Raise e, c') => (Raise e, c')
      end
  end.

Definition create_calculation (operand_a operand_b operation : pyval)
    : outcome Calculation :=
  if negb (is_int_or_float operand_a) then
    Raise (TypeError ("First operand must be a number, got " +:+ type_name operand_a))
  else if negb (is_int_or_float operand_b) then
    Raise (TypeError ("Second operand must be a number, got " +:+ type_name operand_b))
  else if negb (bool_decide (is_Some (get_compute operation))) then
    Raise (TypeError "Operation must have a 'compute' method")
  else if negb (bool_decide (is_Some (get_symbol operation))) then
    Raise (TypeError "Operation must have a 'symbol' attribute")
  else
    a ← to_float operand_a;
    b ← to_float operand_b;
    Return {| operand_a := a; operand_b := b; operation := operation;
              _result := None |}.

(** *** InputValidator *)

Definition not_a_number (value : string) : exn :=
  ValueError ("'" +:+ value +:+ "' is not a valid number").

Definition validate_number (value : string) : outcome float :=
  let body :=
    match float_of_str (Str.strip value) with
    | None => Raise (ValueError "could not convert string to float")
    | Some r =>
        if Float.eqb r Float.inf || Float.eqb r Float.neg_inf || Float.neqb r r
        then Raise (not_a_number value)
        else Return r
    end in
  match body with
  | Raise (ValueError _) => Raise (not_a_number value)
  | r => r
  end.

Definition validate_operation (operation : string) : bool :=
  Operations.dict_mem Operations.OPERATIONS (Str.strip (Str.lower operation)).

Definition valid_commands : list string :=
  ["help"; "history"; "exit"; "quit"; "clear"].

Definition validate_command (command : string) : bool :=
  existsb (String.eqb (Str.strip (Str.lower command))) valid_commands.

(** *** Calculator *)

Inductive stdout_event : Type :=
| Print (line : string)     (** [print(line)] *)
| Prompt (text : string).   (** the prompt that [input(text)] writes *)

(** What [input()] finds on standard input. *)
Inductive stdin_event : Type :=
| Line (text : string)
| Interrupt
| EndOfInput.

Record Calculator : Type := {
  history : CalculationHistory;
  running : bool
}.

(** The calculator object, the store its history lives in, and what has
    been written to standard output so far. *)
Record machine : Type := {
  self : Calculator;
  heap : store;
  stdout : list stdout_event
}.

Definition set_running (b : bool) (m : machine) : machine :=
  {| self := {| history := history (self m); running := b |};
     heap := heap m; stdout := stdout m |}.

Definition set_heap (σ : store) (m : machine) : machine :=
  {| self := self m; heap := σ; stdout := stdout m |}.

Definition write (e : stdout_event) (m : machine) : machine :=
  {| self := self m; heap := heap m; stdout := stdout m ++ [e] |}.

Definition print (line : string) (m : machine) : machine := write (Print line) m.

Definition prints (lines : list string) (m : machine) : machine :=
  foldl (fun m line => print line m) m lines.

(** [Calculator()] in store [σ] *)
Definition Calculator_init (σ : store) : machine :=
  let '(h, σ') := History.__init__ σ in
  {| self := {| history := h; running := false |}; heap := σ'; stdout := [] |}.

Definition rule (n : nat) : string := Str.repeat "=" n.

Definition welcome_text : list string :=
  [ rule 50;
    "   Professional Calculator Application";
    rule 50;
    "Type 'help' for instructions, 'exit' to quit";
    "Supported operations: +, -, *, /";
    "Example: 5 + 3 or add 5 3" ].

Definition _display_welcome (m : machine) : machine := prints welcome_text m.

Definition help_text : list string :=
  [ nl +:+ rule 40;
    "CALCULATOR HELP";
    rule 40;
    "Usage:";
    "  <number> <operation> <number>";
    "  Example: 5 + 3, 10.5 * 2";
    nl +:+ "Supported Operations:";
    "  Addition: +, add";
    "  Subtraction: -, sub, subtract";
    "  Multiplication: *, mul, multiply";
    "  Division: /, div, divide";
    nl +:+ "Special Commands:";
    "  help     - Show this help message";
    "  history  - Show calculation history";
    "  clear    - Clear calculation history";
    "  exit     - Exit the calculator";
    rule 40 ].

Definition _display_help (m : machine) : machine := prints help_text m.

(** [user_input.split()[0]] *)
Definition first_token (user_input : string) : outcome string :=
  match Str.split user_input with
  | [] => Raise (IndexError "list index out of range")
  | t :: _ => Return t
  end.

Definition _is_command (user_input : string) : outcome bool :=
  t ← first_token user_input; Return (validate_command t).

(** [str(calc)] for the object at address [l]: the read of [result] inside
    may fill the object's cache. *)
Definition str_at (l : loc) (σ : store) : outcome string * store :=
  match calcs σ !! l with
  | None => (Raise Store.dangling, σ)
  | Some c =>
      let '(r, c') := Calculation_str c in (r, Store.set_calc σ l c')
  end.

(** The text of a calculation whose symbol is [sym] and whose result is
    [r], and the lines that number such texts from [i] on. *)
Definition shown (c : Calculation) (sym : string) (r : float) : string :=
  str_of_float (operand_a c) +:+ " " +:+ sym +:+ " "
  +:+ str_of_float (operand_b c) +:+ " = " +:+ str_of_float r.

Definition entry_line (σ : store) (i : nat) (l : loc) : string :=
  match calcs σ !! l with
  | Some c =>
      match get_symbol (operation c), _result c with
      | Some sym, Some r => Str.format_2d i +:+ ". " +:+ shown c sym r
      | _, _ => EmptyString
      end
  | None => EmptyString
  end.

Fixpoint numbered (σ : store) (i : nat) (entries : list loc) : list string :=
  match entries with
  | [] => []
  | l :: rest => entry_line σ i l :: numbered σ (S i) rest
  end.

(** An entry is settled when its object exists, has a result cached and
    an operation with a symbol: every entry that the REPL appended is. *)
Definition settled (σ : store) (l : loc) : Prop :=
  exists (c : Calculation) (sym : string) (r : float),
    calcs σ !! l = Some c
    /\ get_symbol (operation c) = Some sym
    /\ _result c = Some r.

(** The loop of [_display_history]: [i] is the number of the next entry. *)
Fixpoint display_entries (i : nat) (entries : list loc) (m : machine)
    : outcome () * machine :=
  match entries with
  | [] => (Return (), m)
  | l :: rest =>
      match str_at l (heap m) with
      | (Return text, σ') =>
          display_entries (S i) rest
            (print (Str.format_2d i +:+ ". " +:+ text) (set_heap σ' m))
      | (Raise e, σ') => (Raise e, set_heap σ' m)
      end
  end.

Definition _display_history (m : machine) : outcome () * machine :=
  if negb (History.__bool__ (history (self m)) (heap m)) then
    (Return (), print "No calculations in history." m)
  else
    let m := prints [nl +:+ rule 30; "CALCULATION HISTORY"; rule 30] m in
    let '(copy, σ') := History.get_history (history (self m)) (heap m) in
    let m := set_heap σ' m in
    match display_entries 1 (Store.list_at (heap m) copy) m with
    | (Return _, m') => (Return (), print (rule 30) m')
    | (Raise e, m') => (Raise e, m')
    end.

Definition _clear_history (m : machine) : machine :=
  print "Calculation history cleared."
    (set_heap (History.clear_history (history (self m)) (heap m)) m).

Definition _handle_command (command : string) (m : machine) : outcome () * machine :=
  if String.eqb command "exit" || String.eqb command "quit" then
    (Return (), set_running false (print "Goodbye!" m))
  else if String.eqb command "help" then (Return (), _display_help m)
  else if String.eqb command "history" then _display_history m
  else if String.eqb command "clear" then (Return (), _clear_history m)
  else (Return (), m).

Definition unsupported_operation (operation_str : string) : exn :=
  ValueError ("Unsupported operation: " +:+ operation_str +:+ ". Available: "
              +:+ Str.join ", " (Str.sorted (Operations.keys Operations.OPERATIONS))).

Definition _parse_input (user_input : string) : outcome (float * string * float) :=
  match Str.split user_input with
  | [operand_a_str; operation_str; operand_b_str] =>
      operand_a ← validate_number operand_a_str;
      operand_b ← validate_number operand_b_str;
      if negb (validate_operation operation_str)
      then Raise (unsupported_operation operation_str)
      else Return (operand_a, Str.lower operation_str, operand_b)
  | _ => Raise (ValueError "Please provide exactly three parts: number operation number")
  end.

(** The [try] block of [_perform_calculation]: look the operation up, build
    the calculation, read its result once. *)
Definition compute_calculation (operand_a : float) (operation_str : string)
    (operand_b : float) : outcome Calculation :=
  match Operations.dict_get Operations.OPERATIONS operation_str with
  | None => Raise (KeyError operation_str)
  | Some op =>
      c ← create_calculation (PFloat operand_a) (PFloat operand_b)
            (Operations.instance op);
      match Calc.result c with
      | (Return _, c') => Return c'
      | (Raise e, _) => Raise e
      end
  end.

Definition _perform_calculation (operand_a : float) (operation_str : string)
    (operand_b : float) (m : machine) : option Calculation * machine :=
  match compute_calculation operand_a operation_str operand_b with
  | Return c => (Some c, m)
  | Raise (ZeroDivisionError msg) => (None, print ("Math error: " +:+ msg) m)
  | Raise e => (None, print ("Calculation error: " +:+ exn_str e) m)
  end.

(** The [try] block of [_handle_calculation_input].  The new calculation
    becomes an object of the store when the history takes it. *)
Definition calculation_input_body (user_input : string) (m : machine)
    : outcome () * machine :=
  match _parse_input user_input with
  | Raise e => (Raise e, m)
  | Return (operand_a, operation_str, operand_b) =>
      match _perform_calculation operand_a operation_str operand_b m with
      | (None, m) => (Return (), m)
      | (Some c, m) =>
          let '(l, σ) := Store.alloc_calc (heap m) c in
          match History.add_calculation (history (self m)) (PCalculation l) σ with
          | (Raise e, σ) => (Raise e, set_heap σ m)
          | (Return _, σ) =>
              match str_at l σ with
              | (Raise e, σ) => (Raise e, set_heap σ m)
              | (Return text, σ) =>
                  (Return (), print ("Result: " +:+ text) (set_heap σ m))
              end
          end
      end
  end.

Definition _handle_calculation_input (user_input : string) (m : machine) : machine :=
  match calculation_input_body user_input m with
  | (Return _, m) => m
  | (Raise (ValueError msg), m) =>
      prints [ "Input error: " +:+ msg;
               "Please use format: <number> <operation> <number>";
               "Example: 5 + 3" ] m
  | (Raise e, m) => print ("Error: " +:+ exn_str e) m
  end.

(** One turn of the loop of [run] on a line that [input] returned. *)
Definition turn_body (user_input : string) (m : machine) : outcome () * machine :=
  match _is_command user_input with
  | Raise e => (Raise e, m)
  | Return true => _handle_command (Str.lower user_input) m
  | Return false => (Return (), _handle_calculation_input user_input m)
  end.

Definition turn (text : string) (m : machine) : machine :=
  let user_input := Str.strip text in
  match user_input with
  | EmptyString => m
  | _ =>
      match turn_body user_input m with
      | (Return _, m) => m
      | (Raise e, m) =>
          prints [ "Unexpected error: " +:+ exn_str e;
                   "Please try again or type 'help' for assistance." ] m
      end
  end.

Definition farewell : string := nl +:+ nl +:+ "Goodbye!".

(** The [while self.running] loop, reading from [stdin]. *)
Fixpoint loop (stdin : list stdin_event) (m : machine) : machine :=
  if running (self m) then
    let m := write (Prompt (nl +:+ "Calculator> ")) m in
    match stdin with
    | [] | EndOfInput :: _ | Interrupt :: _ => print farewell m
    | Line text :: rest => loop rest (turn text m)
    end
  else m.

Definition run (stdin : list stdin_event) (m : machine) : machine :=
  loop stdin (_display_welcome (set_running true m)).

(** *** Calculation.__repr__ *)

(** [f"Calculation(operand_a={self.operand_a}, operand_b={self.operand_b},
    operation={self.operation.__class__.__name__}, result={self._result})"] *)
Definition Calculation_repr (c : Calculation) : string :=
  "Calculation(operand_a=" +:+ str_of_float (operand_a c)
  +:+ ", operand_b=" +:+ str_of_float (operand_b c)
  +:+ ", operation=" +:+ type_name (operation c)
  +:+ ", result="
  +:+ match _result c with
      | None => "None"
      | Some r => str_of_float r
      end
  +:+ ")".

(** *** States of the calculator *)

(** The history object exists and each of its entries is settled. *)
Definition ready (m : machine) : Prop :=
  is_Some (lists (heap m) !! _history (history (self m)))
  /\ Forall (settled (heap m))
       (Store.list_at (heap m) (_history (history (self m)))).

(** One pass through the loop of [run] on the line [text]: the prompt,
    then the turn. *)
Definition prompted_turn (m : machine) (text : string) : machine :=
  turn text (write (Prompt (nl +:+ "Calculator> ")) m).

(** The calculation that a successful line leaves in the store, and the
    store it leaves. *)
Definition computed (a b : float) (op : Operation) (r : float) : Calculation :=
  {| operand_a := a; operand_b := b; operation := Operations.instance op;
     _result := Some r |}.

Definition recorded (m : machine) (c : Calculation) : store :=
  let l := fresh (dom (calcs (heap m))) in
  Store.set_list (Store.set_calc (heap m) l c)
    (_history (history (self m)))
    (Store.list_at (heap m) (_history (history (self m))) ++ [l]).

End Program.

(** ** The built-in conversions, written out

    Executable definitions of [float(s)], [str(x)] and [repr(s)] after
    the CPython reference, so that the program can be run on concrete
    input.  The properties below are proved for every [Builtins]; this
    instance is the one the examples run with. *)

Module Runtime.

Definition is_digit (c : ascii) : bool :=
  ((48 <=? Str.code c) && (Str.code c <=? 57))%N.

Definition digit_value (c : ascii) : Z := Z.of_N (Str.code c) - 48.

Definition underscore : ascii := "_".

(** Underscores may only stand between two digits. *)
Fixpoint underscores_ok (prev : ascii) (s : string) : bool :=
  match s with
  | EmptyString => negb (Ascii.eqb prev underscore)
  | String c s' =>
      (if Ascii.eqb c underscore then is_digit prev
       else negb (Ascii.eqb prev underscore) || is_digit c)
      && underscores_ok c s'
  end.

Fixpoint remove_underscores (s : string) : string :=
  match s with
  | EmptyString => EmptyString
  | String c s' =>
      if Ascii.eqb c underscore then remove_underscores s'
      else String c (remove_underscores s')
  end.

(** Reads a run of digits: the number read so far, how many digits were
    read, and the rest. *)
Fixpoint take_digits (s : string) (acc : Z) (n : Z) : Z * Z * string :=
  match s with
  | String c s' =>
      if is_digit c then take_digits s' (10 * acc + digit_value c) (n + 1)
      else (acc, n, s)
  | EmptyString => (acc, n, s)
  end.

(** The float nearest to [(-1)^neg * m * 10^e], ties to even. *)
Definition of_decimal (neg : bool) (m : Z) (e : Z) : float :=
  if m =? 0 then S754_zero neg
  else if 0 <=? e then
    binary_normalize Float.prec Float.emax
      ((if neg then -1 else 1) * (m * 10 ^ e)) 0 false
  else
    let '(q, e', l) :=
      SFdiv_core_binary Float.prec Float.emax m 0 (10 ^ (- e)) 0 in
    binary_round_aux Float.prec Float.emax neg q e' l.

Definition take_sign (s : string) : bool * string :=
  match s with
  | String "-" s' => (true, s')
  | String "+" s' => (false, s')
  | _ => (false, s)
  end.

(** The exponent part: empty, or [e] or [E], an optional sign and at least
    one digit, up to the end of the text. *)
Definition parse_exponent (s : string) : option Z :=
  match s with
  | EmptyString => Some 0
  | String c s' =>
      if Ascii.eqb c "e" || Ascii.eqb c "E" then
        let '(neg, s'') := take_sign s' in
        match take_digits s'' 0 0 with
        | (x, n, EmptyString) =>
            if 0 <? n then Some (if neg then - x else x) else None
        | _ => None
        end
      else None
  end.

Definition parse_number (neg : bool) (s : string) : option float :=
  let '(ip, ni, s1) := take_digits s 0 0 in
  let '(m, nf, s2) :=
    match s1 with
    | String "." s1' => take_digits s1' ip 0
    | _ => (ip, 0, s1)
    end in
  if ni + nf =? 0 then None
  else x ← parse_exponent s2; Some (of_decimal neg m (x - nf)).

Definition parse_float (s : string) : option float :=
  let s := Str.strip s in
  if negb (underscores_ok " " s) then None
  else
    let '(neg, body) := take_sign (remove_underscores s) in
    let word := Str.lower body in
    if String.eqb word "inf" || String.eqb word "infinity"
    then Some (S754_infinity neg)
    else if String.eqb word "nan" then Some S754_nan
    else parse_number neg body.

(** *** [repr] of a float: the shortest decimal text that reads back as
    the same float, closest to it among those of that length. *)

Definition digits_of (n : Z) : string :=
  NilZero.string_of_uint (N.to_uint (Z.to_N n)).

Definition length_Z (s : string) : Z := Z.of_nat (String.length s).

(** A positive finite float [m * 2^e] as a fraction [(num, den)]. *)
Definition fraction (m : positive) (e : Z) : Z * Z :=
  if 0 <=? e then (Zpos m * 2 ^ e, 1) else (Zpos m, 2 ^ (- e)).

(** For [num < den]: the least [t >= 1] with [den <= num * 10^t]. *)
Fixpoint first_digit_place (fuel : nat) (num den t : Z) : Z :=
  match fuel with
  | O => t
  | S fuel' =>
      if den <=? num * 10 then t
      else first_digit_place fuel' (num * 10) den (t + 1)
  end.

(** [floor(log10(num/den))] *)
Definition floor_log10 (num den : Z) : Z :=
  if den <=? num then length_Z (digits_of (num / den)) - 1
  else - first_digit_place 400 num den 1.

(** [floor((num/den) / 10^j)] *)
Definition floor_scaled (num den j : Z) : Z :=
  if 0 <=? j then num / (den * 10 ^ j) else (num * 10 ^ (- j)) / den.

(** Is [d * 10^j] at least as close to [num/den] from below as
    [(d+1) * 10^j] is from above? *)
Definition lower_is_closer (num den d j : Z) : bool :=
  if 0 <=? j then 2 * num <=? (2 * d + 1) * 10 ^ j * den
  else 2 * num * 10 ^ (- j) <=? (2 * d + 1) * den.

(** Tries [p], [p+1], ... significant digits: the first length at which
    a neighbouring decimal reads back as [x]. *)
Fixpoint shortest_from (fuel : nat) (x : float) (num den k p : Z) : Z * Z :=
  let j := k - p + 1 in
  let lo := floor_scaled num den j in
  let hi := lo + 1 in
  let lo_ok := Float.eqb (of_decimal false lo j) x in
  let hi_ok := Float.eqb (of_decimal false hi j) x in
  match fuel with
  | O => (if lower_is_closer num den lo j then lo else hi, j)
  | S fuel' =>
      if lo_ok && hi_ok then
        (if lower_is_closer num den lo j then lo else hi, j)
      else if lo_ok then (lo, j)
      else if hi_ok then (hi, j)
      else shortest_from fuel' x num den k (p + 1)
  end.

Fixpoint strip_zeros (s : string) : string :=
  match s with
  | EmptyString => EmptyString
  | String c s' =>
      match strip_zeros s' with
      | EmptyString => if Ascii.eqb c "0" then EmptyString else String c EmptyString
      | r => String c r
      end
  end.

Definition zeros (n : Z) : string := Str.repeat "0" (Z.to_nat n).

(** The digits [ds] with the decimal point after the first [decpt] of
    them, laid out as [repr] does. *)
Definition layout (ds : string) (decpt : Z) : string :=
  let n := length_Z ds in
  if (decpt <=? -4) || (16 <? decpt) then
    let x := decpt - 1 in
    let xs := digits_of (Z.abs x) in
    String.substring 0 1 ds
    +:+ (if 1 <? n then "." +:+ String.substring 1 (String.length ds - 1) ds
         else EmptyString)
    +:+ "e" +:+ (if x <? 0 then "-" else "+")
    +:+ (if length_Z xs <? 2 then "0" +:+ xs else xs)
  else if decpt <=? 0 then "0." +:+ zeros (- decpt) +:+ ds
  else if n <=? decpt then ds +:+ zeros (decpt - n) +:+ ".0"
  else String.substring 0 (Z.to_nat decpt) ds +:+ "."
       +:+ String.substring (Z.to_nat decpt) (Z.to_nat (n - decpt)) ds.

Definition repr_float (x : float) : string :=
  match x with
  | S754_nan => "nan"
  | S754_infinity neg => if neg then "-inf" else "inf"
  | S754_zero neg => if neg then "-0.0" else "0.0"
  | S754_finite neg m e =>
      let '(num, den) := fraction m e in
      let k := floor_log10 num den in
      let '(d, j) := shortest_from 16 (S754_finite false m e) num den k 1 in
      let ds := digits_of d in
      (if neg then "-" else EmptyString)
      +:+ layout (strip_zeros ds) (length_Z ds + j)
  end.

(** *** [repr] of a [str] *)

Definition hex_digit (n : N) : ascii :=
  ascii_of_N (if (n <? 10)%N then 48 + n else 87 + n).

Definition backslash : ascii := ascii_of_N 92.
Definition double_quote : ascii := ascii_of_N 34.
Definition single_quote : ascii := ascii_of_N 39.

(** [str.isprintable] on one code point below 256 *)
Definition is_printable (c : ascii) : bool :=
  let n := Str.code c in
  (((32 <=? n) && (n <=? 126)) || ((161 <=? n) && negb (n =? 173)))%N.

Definition escape_char (q : ascii) (c : ascii) : string :=
  let n := Str.code c in
  if Ascii.eqb c backslash || Ascii.eqb c q then String backslash (String c EmptyString)
  else if (n =? 9)%N then String backslash "t"
  else if (n =? 10)%N then String backslash "n"
  else if (n =? 13)%N then String backslash "r"
  else if is_printable c then String c EmptyString
  else String backslash
         (String "x" (String (hex_digit (n / 16)) (String (hex_digit (n mod 16)) EmptyString))).

Fixpoint escape (q : ascii) (s : string) : string :=
  match s with
  | EmptyString => EmptyString
  | String c s' => escape_char q c +:+ escape q s'
  end.

Fixpoint contains (c : ascii) (s : string) : bool :=
  match s with
  | EmptyString => false
  | String c' s' => Ascii.eqb c c' || contains c s'
  end.

Definition repr_str (s : string) : string :=
  let q := if contains single_quote s && negb (contains double_quote s)
           then double_quote else single_quote in
  String q (escape q s) +:+ String q EmptyString.

#[export] Instance python : Builtins := {
  float_of_str := parse_float;
  str_of_float := repr_float;
  repr_of_str := repr_str
}.

End Runtime.

(** * The program run on concrete input *)

Module Examples.
Import Runtime.

Definition five : float := S754_finite false 5629499534213120 (-50).
Definition three : float := S754_finite false 6755399441055744 (-51).
Definition eight : float := S754_finite false 4503599627370496 (-49).
Definition six : float := S754_finite false 6755399441055744 (-50).
Definition two : float := S754_finite false 4503599627370496 (-51).

(** A calculator just created, in an empty store. *)
Definition fresh_calculator : machine := Calculator_init Store.empty.

(** The same calculator after the lines [5 + 3] and [6 / 3]. *)
Definition after_two_lines : machine :=
  turn "6 / 3" (turn "5 + 3" (set_running true fresh_calculator)).

End Examples.

(** * Properties *)

(** ** Strings *)

Lemma append_cons (c : ascii) (s t : string) :
  String c s +:+ t = String c (s +:+ t).
Proof. reflexivity. Qed.

Lemma append_nil_r (s : string) : s +:+ EmptyString = s.
Proof. induction s as [|c s IH]; [done|]. by rewrite append_cons, IH. Qed.

Lemma append_assoc (s t u : string) : (s +:+ t) +:+ u = s +:+ t +:+ u.
Proof. induction s as [|c s IH]; [done|]. by rewrite !append_cons, IH. Qed.

Lemma has_space_append (s t : string) :
  Str.has_space (s +:+ t) = Str.has_space s || Str.has_space t.
Proof.
  induction s as [|c s IH]; [done|].
  rewrite append_cons. simpl. by rewrite IH, orb_assoc.
Qed.

(** Lower-casing neither makes nor removes a whitespace character. *)
Lemma isspace_lower_char (c : ascii) :
  Str.isspace (Str.lower_char c) = Str.isspace c.
Proof.
  destruct c as [b0 b1 b2 b3 b4 b5 b6 b7].
  destruct b0, b1, b2, b3, b4, b5, b6, b7; reflexivity.
Qed.

Lemma has_space_lower (s : string) :
  Str.has_space (Str.lower s) = Str.has_space s.
Proof.
  induction s as [|c s IH]; simpl; [done|].
  by rewrite isspace_lower_char, IH.
Qed.

Lemma rstrip_no_space (s : string) :
  Str.has_space s = false -> Str.rstrip s = s.
Proof.
  induction s as [|c s IH]; simpl; [done|].
  intros [Hc Hs]%orb_false_elim. rewrite (IH Hs), Hc. by destruct s.
Qed.

Lemma strip_no_space (s : string) :
  Str.has_space s = false -> Str.strip s = s.
Proof.
  intros Hs. unfold Str.strip.
  assert (Hl : Str.lstrip s = s).
  { destruct s as [|c s]; simpl in *; [done|].
    apply orb_false_elim in Hs as [-> _]. done. }
  rewrite Hl. by apply rstrip_no_space.
Qed.

(** The parts that [split] returns hold no whitespace. *)
Lemma split_from_tokens (s : string) :
  forall w : string,
    Str.has_space w = false ->
    Forall (fun t => Str.has_space t = false) (Str.split_from w s).
Proof.
  induction s as [|c s IH]; intros w Hw; simpl.
  - destruct w; by repeat constructor.
  - destruct (Str.isspace c) eqn:Hc.
    + destruct w; [by apply IH | constructor; [done | by apply IH]].
    + apply IH. rewrite has_space_append. simpl. by rewrite Hw, Hc.
Qed.

(** A text without whitespace is its own single part. *)
Lemma split_from_no_space (s : string) :
  forall w : string,
    Str.has_space s = false ->
    Str.split_from w s
    = match w +:+ s with EmptyString => [] | t => [t] end.
Proof.
  induction s as [|c s IH]; intros w Hs; simpl.
  - rewrite append_nil_r. by destruct w.
  - simpl in Hs. apply orb_false_elim in Hs as [Hc Hs]. rewrite Hc.
    rewrite (IH _ Hs), append_assoc. done.
Qed.

(** ** Floats *)

Lemma eqb_zero_iff (b : float) :
  Float.eqb b Float.zero = true <-> exists s, b = S754_zero s.
Proof.
  destruct b as [s|s| |s m e]; simpl; split;
    try (intros [s' Hs]; discriminate Hs); try discriminate; eauto.
  - destruct s; discriminate.
  - destruct s; discriminate.
Qed.

Lemma eqb_refl_finite (s : bool) (m : positive) (e : Z) :
  Float.eqb (S754_finite s m e) (S754_finite s m e) = true.
Proof.
  unfold Float.eqb, SFeqb, SFcompare.
  rewrite Z.compare_refl, Pos.compare_cont_refl.
  by destruct s.
Qed.

(** The test of [validate_number] for the three special values is the
    test for "not finite". *)
Lemma special_value_test (r : float) :
  Float.eqb r Float.inf || Float.eqb r Float.neg_inf || Float.neqb r r
  = negb (Float.is_finite r).
Proof.
  destruct r as [s|s| |s m e]; try by destruct s.
  - done.
  - unfold Float.neqb. fold (Float.eqb (S754_finite s m e) (S754_finite s m e)).
    rewrite eqb_refl_finite. by destruct s.
Qed.

(** ** Operations *)

Lemma Division_compute_eq (a b : float) :
  Operations.Division_compute a b
  = (if Float.eqb b Float.zero
     then Raise (ZeroDivisionError "Cannot divide by zero")
     else Return (SFdiv Float.prec Float.emax a b)).
Proof.
  unfold Operations.Division_compute, Float.truediv.
  by destruct (Float.eqb b Float.zero).
Qed.

(** C3. [Division.compute(a, b)] raises the division-by-zero error exactly
    when [b == 0] (either zero), whatever [a] is, zero included; for any
    other [b] it returns the IEEE quotient [a / b] and raises nothing.
    The outcome is one or the other: an error carries no value. *)
Theorem Division_compute_zero_divisor (a b : float) :
  Operations.Division_compute a b
  = (if Float.eqb b Float.zero
     then Raise (ZeroDivisionError "Cannot divide by zero")
     else Return (SFdiv Float.prec Float.emax a b))
  /\ ((exists e, Operations.Division_compute a b = Raise e)
      <-> Float.eqb b Float.zero = true)
  /\ (Float.eqb b Float.zero = true <-> exists s, b = S754_zero s)
  /\ Operations.Division_compute Float.zero b
     = (if Float.eqb b Float.zero
        then Raise (ZeroDivisionError "Cannot divide by zero")
        else Return (SFdiv Float.prec Float.emax Float.zero b)).
Proof.
  split; [apply Division_compute_eq|].
  split; [|split; [apply eqb_zero_iff | apply Division_compute_eq]].
  rewrite Division_compute_eq.
  destruct (Float.eqb b Float.zero); split; eauto.
  - intros [e He]. discriminate He.
  - discriminate.
Qed.

(** The four operations of the registry return a value unless the
    operation is a division and the divisor a zero. *)
Lemma compute_total (op : Operation) (a b : float) :
  ~ (op = Division /\ Float.eqb b Float.zero = true) ->
  exists r, Operations.compute op a b = Return r.
Proof.
  intros Hnz. destruct op; simpl; eauto.
  rewrite Division_compute_eq.
  destruct (Float.eqb b Float.zero) eqn:Hb; eauto.
  exfalso. by apply Hnz.
Qed.

(** ** Calculation: the cached result *)

Lemma result_cached (c : Calculation) (r : float) :
  _result c = Some r -> Calc.result c = (Return r, c).
Proof. intros Hc. unfold Calc.result. by rewrite Hc. Qed.

Lemma perform_cached (acts : list action) :
  forall (c : Calculation) (r : float),
    _result c = Some r ->
    Forall (fun read => read = Return r) (perform acts c).1
    /\ _result (perform acts c).2 = Some r.
Proof.
  induction acts as [|[|op] acts IH]; intros c r Hc; simpl.
  - by split.
  - rewrite (result_cached c r Hc).
    destruct (IH c r Hc) as [Hreads Hfinal].
    destruct (perform acts c) as [rs c'']. simpl in *.
    split; [by constructor | done].
  - by apply IH.
Qed.

(** C4, as amended. For a calculation that holds no result yet, which is
    how the factory returns it, and whose operation's [compute] returns a
    value for the operands (for the four operations of the registry:
    unless it divides by zero), the first read of [result] returns what
    [compute] returned and stores it; from then on every read returns that
    same value and leaves the object as it is, whatever is assigned to
    [operation] in between, including an object with no [compute] at
    all. *)
Theorem result_computed_once (c : Calculation)
    (f : float -> float -> outcome float) (r : float) :
  _result c = None ->
  get_compute (operation c) = Some f ->
  f (operand_a c) (operand_b c) = Return r ->
  Calc.result c = (Return r, Calc.set_result c (Some r))
  /\ (forall op : pyval,
        Calc.result (Calc.set_operation (Calc.set_result c (Some r)) op)
        = (Return r, Calc.set_operation (Calc.set_result c (Some r)) op))
  /\ (forall acts : list action,
        Forall (fun read => read = Return r)
          (perform acts (Calc.result c).2).1
        /\ _result (perform acts (Calc.result c).2).2 = Some r).
Proof.
  intros Hnone Hf Hr.
  assert (Hfirst : Calc.result c = (Return r, Calc.set_result c (Some r))).
  { unfold Calc.result. by rewrite Hnone, Hf, Hr. }
  split; [done|]. split.
  - intros op. by apply result_cached.
  - intros acts. rewrite Hfirst. by apply perform_cached.
Qed.

(** C4, as stated, fails for a calculation constructed with a result
    given: nothing divides by zero, [compute] would return 8.0, and the
    first read returns the 2.0 the object was constructed with and leaves
    the object as it was. *)
Lemma result_given_at_construction_not_computed :
  let c := {| operand_a := Examples.five; operand_b := Examples.three;
              operation := Operations.instance Addition;
              _result := Some Examples.two |} in
  get_compute (operation c) = Some (Operations.compute Addition)
  /\ Operations.compute Addition (operand_a c) (operand_b c)
     = Return Examples.eight
  /\ Calc.result c = (Return Examples.two, c)
  /\ (Calc.result c).1
     <> Operations.compute Addition (operand_a c) (operand_b c).
Proof.
  split; [reflexivity|]. split; [by vm_compute|]. split; [reflexivity|].
  intros Heq. vm_compute in Heq. discriminate Heq.
Qed.

(** ** CalculationFactory *)

Lemma to_float_bool (b : bool) :
  to_float (PBool b) = Return (if b then Float.one else Float.zero).
Proof. by destruct b. Qed.

Lemma create_calculation_checked (a b op : pyval) :
  is_int_or_float a = true -> is_int_or_float b = true ->
  is_Some (get_compute op) -> is_Some (get_symbol op) ->
  create_calculation a b op
  = match to_float a, to_float b with
    | Return x, Return y =>
        Return {| operand_a := x; operand_b := y; operation := op;
                  _result := None |}
    | Raise e, _ => Raise e
    | Return _, Raise e => Raise e
    end.
Proof.
  unfold create_calculation. intros -> -> Hc Hs. simpl.
  rewrite (bool_decide_eq_true_2 _ Hc), (bool_decide_eq_true_2 _ Hs). simpl.
  unfold mbind, outcome_bind.
  destruct (to_float a); [|done]. by destruct (to_float b).
Qed.

(** C6, as amended. The factory checks, in this order: the first operand,
    then the second, must be an [int] or a [float] (else a [TypeError]
    naming the operand and its type); the operation must have [compute],
    then [symbol] (else a [TypeError] naming the missing member).  After
    that both operands are converted with [float()]: when both
    conversions succeed the factory returns a new calculation holding the
    two floats, the operation, and no result; a conversion that raises
    (an [int] beyond the float range) propagates. A [float] operand
    always converts, to itself. *)
Theorem create_calculation_cases (a b op : pyval) :
  (is_int_or_float a = false ->
     create_calculation a b op
     = Raise (TypeError ("First operand must be a number, got " +:+ type_name a)))
  /\ (is_int_or_float a = true -> is_int_or_float b = false ->
     create_calculation a b op
     = Raise (TypeError ("Second operand must be a number, got " +:+ type_name b)))
  /\ (is_int_or_float a = true -> is_int_or_float b = true ->
     get_compute op = None ->
     create_calculation a b op
     = Raise (TypeError "Operation must have a 'compute' method"))
  /\ (is_int_or_float a = true -> is_int_or_float b = true ->
     is_Some (get_compute op) -> get_symbol op = None ->
     create_calculation a b op
     = Raise (TypeError "Operation must have a 'symbol' attribute"))
  /\ (is_int_or_float a = true -> is_int_or_float b = true ->
     is_Some (get_compute op) -> is_Some (get_symbol op) ->
     create_calculation a b op
     = match to_float a, to_float b with
       | Return x, Return y =>
           Return {| operand_a := x; operand_b := y; operation := op;
                     _result := None |}
       | Raise e, _ => Raise e
       | Return _, Raise e => Raise e
       end)
  /\ (forall x y : float,
       to_float (PFloat x) = Return x /\
       (is_Some (get_compute op) -> is_Some (get_symbol op) ->
        create_calculation (PFloat x) (PFloat y) op
        = Return {| operand_a := x; operand_b := y; operation := op;
                    _result := None |})).
Proof.
  split; [|split; [|split; [|split; [|split]]]].
  - unfold create_calculation. by intros ->.
  - unfold create_calculation. by intros -> ->.
  - unfold create_calculation. intros -> -> Hc. simpl.
    rewrite bool_decide_eq_false_2; [done|]. rewrite Hc. by intros [? ?].
  - unfold create_calculation. intros -> -> Hc Hs. simpl.
    rewrite (bool_decide_eq_true_2 _ Hc).
    rewrite bool_decide_eq_false_2; [done|]. rewrite Hs. by intros [? ?].
  - by apply create_calculation_checked.
  - intros x y. split; [done|]. intros Hc Hs.
    by rewrite create_calculation_checked.
Qed.

(** C6, as stated, fails: both operands are numeric and the operation has
    both members, yet the factory neither raises a [TypeError] nor
    returns a calculation. *)
Lemma create_calculation_int_too_large :
  is_int_or_float (PInt (10 ^ 400)) = true
  /\ is_int_or_float (PInt 1) = true
  /\ is_Some (get_compute (Operations.instance Addition))
  /\ is_Some (get_symbol (Operations.instance Addition))
  /\ create_calculation (PInt (10 ^ 400)) (PInt 1) (Operations.instance Addition)
     = Raise (OverflowError "int too large to convert to float")
  /\ ~ (exists c : Calculation,
         create_calculation (PInt (10 ^ 400)) (PInt 1) (Operations.instance Addition)
         = Return c).
Proof.
  split; [done|]. split; [done|]. split; [by eexists|]. split; [by eexists|].
  split; [by vm_compute|]. intros [c Hc]. vm_compute in Hc. discriminate Hc.
Qed.

(** C9. [True] and [False] pass the factory's operand check: with any
    operation that has [compute] and [symbol], the factory returns a
    calculation on [1.0] and [0.0]. *)
Theorem create_calculation_bools (op : pyval) :
  is_Some (get_compute op) -> is_Some (get_symbol op) ->
  is_int_or_float (PBool true) = true
  /\ is_int_or_float (PBool false) = true
  /\ create_calculation (PBool true) (PBool false) op
     = Return {| operand_a := Float.one; operand_b := Float.zero;
                 operation := op; _result := None |}.
Proof.
  intros Hc Hs. split; [done|]. split; [done|].
  by rewrite create_calculation_checked.
Qed.

(** ** The store and the history *)

Lemma list_at_set_list (σ : store) (l : loc) (xs : list loc) :
  Store.list_at (Store.set_list σ l xs) l = xs.
Proof. unfold Store.list_at. simpl. by rewrite lookup_insert_eq. Qed.

Lemma list_at_set_list_ne (σ : store) (l l' : loc) (xs : list loc) :
  l <> l' -> Store.list_at (Store.set_list σ l xs) l' = Store.list_at σ l'.
Proof. intros Hne. unfold Store.list_at. simpl. by rewrite lookup_insert_ne. Qed.

Lemma alloc_list_is_new (σ : store) (xs : list loc) :
  lists σ !! (Store.alloc_list σ xs).1 = None.
Proof. simpl. apply not_elem_of_dom, is_fresh. Qed.

Lemma get_history_new (self : CalculationHistory) (σ : store) :
  is_Some (lists σ !! _history self) ->
  (History.get_history self σ).1 <> _history self.
Proof.
  intros [xs Hxs] Heq. unfold History.get_history in Heq.
  pose proof (alloc_list_is_new σ (Store.list_at σ (_history self))) as Hnew.
  rewrite Heq in Hnew. congruence.
Qed.

Lemma get_history_contents (self : CalculationHistory) (σ : store) :
  Store.list_at (History.get_history self σ).2 (History.get_history self σ).1
  = Store.list_at σ (_history self).
Proof. unfold History.get_history, Store.alloc_list. simpl. apply list_at_set_list. Qed.

Lemma get_history_keeps (self : CalculationHistory) (σ : store) (l : loc) :
  is_Some (lists σ !! l) ->
  Store.list_at (History.get_history self σ).2 l = Store.list_at σ l.
Proof.
  intros [xs Hxs]. unfold History.get_history, Store.alloc_list. simpl.
  apply list_at_set_list_ne. intros Heq.
  pose proof (alloc_list_is_new σ (Store.list_at σ (_history self))) as Hnew.
  simpl in Hnew. rewrite Heq in Hnew. congruence.
Qed.

Lemma get_history_calcs (self : CalculationHistory) (σ : store) :
  calcs (History.get_history self σ).2 = calcs σ.
Proof. done. Qed.

Lemma add_calculation_accepts (self : CalculationHistory) (l : loc) (σ : store) :
  History.add_calculation self (PCalculation l) σ
  = (Return (), Store.set_list σ (_history self)
                  (Store.list_at σ (_history self) ++ [l])).
Proof. done. Qed.

Lemma add_calculation_rejects (self : CalculationHistory) (v : pyval) (σ : store) :
  History.is_Calculation v = false ->
  History.add_calculation self v σ
  = (Raise (TypeError "Must provide a Calculation instance"), σ).
Proof. by destruct v. Qed.

Lemma add_all_contents (self : CalculationHistory) (entries : list loc) :
  forall σ : store,
    Store.list_at (History.add_all self (PCalculation <$> entries) σ) (_history self)
    = Store.list_at σ (_history self) ++ entries.
Proof.
  induction entries as [|l entries IH]; intros σ; simpl.
  - by rewrite app_nil_r.
  - rewrite IH, list_at_set_list. by rewrite <- app_assoc.
Qed.

Lemma add_all_allocated (self : CalculationHistory) (vs : list pyval) :
  forall σ : store,
    is_Some (lists σ !! _history self) ->
    is_Some (lists (History.add_all self vs σ) !! _history self).
Proof.
  induction vs as [|v vs IH]; intros σ Hσ; [done|]. simpl. apply IH.
  destruct v; simpl; try done. rewrite lookup_insert_eq. by eexists.
Qed.

(** C7. For a history object of the store: after appending the
    calculations [entries], [get_history()] returns a list holding what
    the history held before followed by [entries] in the order of the
    appends (so [N] entries, in insertion order, for a history that was
    empty); the list returned is a new object, not the history's own, so
    whatever the caller then stores in it (appending, removing,
    reordering: any new content [xs]) leaves the history and the result of
    every later [get_history()] as they were; and a value that is not a
    [Calculation] is refused with a [TypeError], the store staying as it
    was. *)
Theorem get_history_independent_copy (self : CalculationHistory) (σ : store)
    (entries : list loc) :
  is_Some (lists σ !! _history self) ->
  let σN := History.add_all self (PCalculation <$> entries) σ in
  let copy := (History.get_history self σN).1 in
  let σ' := (History.get_history self σN).2 in
  Store.list_at σ' copy = Store.list_at σ (_history self) ++ entries
  /\ length (Store.list_at σ' copy) = (History.__len__ self σ + length entries)%nat
  /\ (Store.list_at σ (_history self) = [] ->
      Store.list_at σ' copy = entries
      /\ length (Store.list_at σ' copy) = length entries)
  /\ copy <> _history self
  /\ (forall xs : list loc,
       let σ'' := Store.set_list σ' copy xs in
       Store.list_at σ'' (_history self) = Store.list_at σ (_history self) ++ entries
       /\ Store.list_at (History.get_history self σ'').2
                        (History.get_history self σ'').1
          = Store.list_at σ (_history self) ++ entries)
  /\ (forall v : pyval,
       History.is_Calculation v = false ->
       History.add_calculation self v σN
       = (Raise (TypeError "Must provide a Calculation instance"), σN)).
Proof.
  intros Hself σN copy σ'.
  assert (HσN : is_Some (lists σN !! _history self)) by by apply add_all_allocated.
  assert (Hcopy : Store.list_at σ' copy = Store.list_at σ (_history self) ++ entries).
  { unfold σ', copy. rewrite get_history_contents. apply add_all_contents. }
  assert (Hnew : copy <> _history self) by by apply get_history_new.
  split; [done|]. split.
  { rewrite Hcopy, length_app. done. }
  split.
  { intros Hempty. rewrite Hcopy, Hempty. done. }
  split; [done|]. split.
  - intros xs σ''.
    assert (Hkept : Store.list_at σ'' (_history self)
                    = Store.list_at σ (_history self) ++ entries).
    { unfold σ''. rewrite list_at_set_list_ne by done.
      unfold σ'. rewrite get_history_keeps by done. apply add_all_contents. }
    split; [done|]. by rewrite get_history_contents.
  - intros v Hv. by apply add_calculation_rejects.
Qed.

(** ** InputValidator and the REPL *)

Section Properties.
Context `{Builtins}.

Lemma validate_number_eq (value : string) :
  validate_number value
  = match float_of_str (Str.strip value) with
    | Some r => if Float.is_finite r then Return r else Raise (not_a_number value)
    | None => Raise (not_a_number value)
    end.
Proof.
  unfold validate_number.
  destruct (float_of_str (Str.strip value)) as [r|]; [|done].
  rewrite special_value_test. by destruct (Float.is_finite r).
Qed.

(** C5. [validate_number(value)] parses [value.strip()].  Either the
    text parses to a finite float, and that float is returned; or the text
    does not parse, or parses to plus infinity, minus infinity or NaN, and
    a [ValueError] is raised whose message is the original [value],
    untrimmed, between quotes, followed by " is not a valid number".
    There is no third outcome. *)
Theorem validate_number_outcomes (value : string) :
  (exists r : float,
     float_of_str (Str.strip value) = Some r
     /\ Float.is_finite r = true
     /\ validate_number value = Return r)
  \/ ((float_of_str (Str.strip value) = None
       \/ float_of_str (Str.strip value) = Some (S754_infinity false)
       \/ float_of_str (Str.strip value) = Some (S754_infinity true)
       \/ float_of_str (Str.strip value) = Some S754_nan)
      /\ validate_number value
         = Raise (ValueError ("'" +:+ value +:+ "' is not a valid number"))).
Proof.
  rewrite validate_number_eq.
  destruct (float_of_str (Str.strip value)) as [[s|[]| |s m e]|]; simpl;
    first [ left; eexists; split; [reflexivity | split; reflexivity]
          | right; split; [auto 6 | reflexivity] ].
Qed.

Lemma validate_number_raises (value : string) (e : exn) :
  validate_number value = Raise e -> e = not_a_number value.
Proof.
  rewrite validate_number_eq.
  destruct (float_of_str (Str.strip value)) as [r|]; [|congruence].
  destruct (Float.is_finite r); congruence.
Qed.

(** *** The loop body *)

Lemma turn_nonempty (text : string) (m : machine) :
  Str.strip text <> EmptyString ->
  turn text m
  = match turn_body (Str.strip text) m with
    | (Return _, m') => m'
    | (Raise e, m') =>
        prints [ "Unexpected error: " +:+ exn_str e;
                 "Please try again or type 'help' for assistance." ] m'
    end.
Proof. unfold turn. by destruct (Str.strip text). Qed.

Lemma parsed_nonempty (u : string) (p : float * string * float) :
  _parse_input u = Return p -> u <> EmptyString.
Proof. by intros Hp ->. Qed.

(** What [_perform_calculation] does on a zero divisor. *)
Lemma divide_by_zero_discarded (a b : float) (op : string) (m : machine) :
  Operations.dict_get Operations.OPERATIONS op = Some Division ->
  Float.eqb b Float.zero = true ->
  _perform_calculation a op b m
  = (None, print "Math error: Cannot divide by zero" m).
Proof.
  intros Hop Hb. unfold _perform_calculation, compute_calculation.
  rewrite Hop. simpl. unfold Calc.result. simpl.
  by rewrite Division_compute_eq, Hb.
Qed.

(** C2. A calculation line (not a command) whose three parts validate, whose
    operator is an alias of division and whose divisor is a zero is
    answered with the math error and nothing else: the calculator object,
    the whole store and with it the history are what they were; only the
    one line is added to the output. *)
Theorem division_by_zero_leaves_history (text : string) (m : machine)
    (a b : float) (op : string) :
  _is_command (Str.strip text) = Return false ->
  _parse_input (Str.strip text) = Return (a, op, b) ->
  Operations.dict_get Operations.OPERATIONS op = Some Division ->
  Float.eqb b Float.zero = true ->
  turn text m = print "Math error: Cannot divide by zero" m
  /\ heap (turn text m) = heap m
  /\ self (turn text m) = self m
  /\ Store.list_at (heap (turn text m)) (_history (history (self (turn text m))))
     = Store.list_at (heap m) (_history (history (self m)))
  /\ stdout (turn text m) = stdout m ++ [Print "Math error: Cannot divide by zero"].
Proof.
  intros Hcmd Hparse Hop Hb.
  assert (Hturn : turn text m = print "Math error: Cannot divide by zero" m).
  { rewrite turn_nonempty by (by eapply parsed_nonempty).
    unfold turn_body. rewrite Hcmd.
    unfold _handle_calculation_input, calculation_input_body.
    rewrite Hparse. by rewrite divide_by_zero_discarded. }
  by rewrite Hturn.
Qed.

Lemma first_token_single (u : string) :
  Str.has_space u = false -> u <> EmptyString -> first_token u = Return u.
Proof.
  intros Hspace Hne. unfold first_token, Str.split.
  rewrite split_from_no_space by done.
  change (EmptyString +:+ u) with u. by destruct u.
Qed.

(** A line that is one of the commands and nothing else, in any letter
    case and with any whitespace around it, is handed to
    [_handle_command] as that command. *)
Lemma exact_command_dispatched (text cmd : string) (m : machine) :
  Str.lower (Str.strip text) = cmd ->
  In cmd valid_commands ->
  turn text m
  = match _handle_command cmd m with
    | (Return _, m') => m'
    | (Raise e, m') =>
        prints [ "Unexpected error: " +:+ exn_str e;
                 "Please try again or type 'help' for assistance." ] m'
    end.
Proof.
  intros Hlower Hcmd.
  assert (Hspace : Str.has_space (Str.strip text) = false).
  { rewrite <- has_space_lower, Hlower.
    repeat (destruct Hcmd as [<-|Hcmd]; [reflexivity|]). contradiction. }
  assert (Hne : Str.strip text <> EmptyString).
  { intros Hempty. rewrite Hempty in Hlower. simpl in Hlower. subst cmd.
    repeat (destruct Hcmd as [Hcmd|Hcmd]; [discriminate Hcmd|]). contradiction. }
  assert (Hvalid : validate_command (Str.strip text) = true).
  { unfold validate_command. rewrite Hlower.
    repeat (destruct Hcmd as [<-|Hcmd]; [reflexivity|]). contradiction. }
  rewrite turn_nonempty by done.
  unfold turn_body, _is_command.
  rewrite (first_token_single _ Hspace Hne). simpl.
  by rewrite Hvalid, Hlower.
Qed.

(** C1, the failing case. A line whose first word is a command and that
    has more words is taken for a command, and then matches none: nothing
    is printed, [running] stays as it was, nothing is dispatched. *)
Theorem command_with_more_words_ignored (m : machine) :
  _is_command "help me please" = Return true
  /\ turn "help me please" m = m
  /\ _is_command "exit now" = Return true
  /\ turn "exit now" m = m
  /\ loop [Line "exit now"; Line "quit please"] (set_running true m)
     = print farewell
         (write (Prompt (nl +:+ "Calculator> "))
            (write (Prompt (nl +:+ "Calculator> "))
               (write (Prompt (nl +:+ "Calculator> ")) (set_running true m)))).
Proof. repeat split. Qed.

(** *** The registry *)

Lemma aliases_table :
  Operations.aliases Addition = ["+"; "add"; "addition"]
  /\ Operations.aliases Subtraction = ["-"; "sub"; "subtract"; "subtraction"]
  /\ Operations.aliases Multiplication = ["*"; "mul"; "multiply"; "multiplication"]
  /\ Operations.aliases Division = ["/"; "div"; "divide"; "division"].
Proof. repeat split. Qed.

Lemma alias_lookup (op : Operation) (k : string) :
  In k (Operations.aliases op) ->
  Operations.dict_get Operations.OPERATIONS k = Some op.
Proof.
  destruct op; vm_compute; intros Hk;
    repeat (destruct Hk as [<-|Hk]; [reflexivity|]); contradiction.
Qed.

Lemma dict_mem_keys {V : Type} (d : list (string * V)) (k : string) :
  Operations.dict_mem d k = true <-> In k (Operations.keys d).
Proof.
  unfold Operations.dict_mem.
  induction d as [|[k' v] d IH]; simpl; [split; [discriminate | tauto]|].
  destruct (String.eqb k' k) eqn:Hk.
  - apply String.eqb_eq in Hk. tauto.
  - apply String.eqb_neq in Hk. rewrite IH. split; [tauto|].
    by intros [?|?].
Qed.

Lemma dict_mem_get {V : Type} (d : list (string * V)) (k : string) :
  Operations.dict_mem d k = true -> exists v, Operations.dict_get d k = Some v.
Proof.
  unfold Operations.dict_mem. destruct (Operations.dict_get d k); [eauto|done].
Qed.

Lemma parse_unknown_operator (user_input sa sop sb : string) :
  Str.split user_input = [sa; sop; sb] ->
  validate_operation sop = false ->
  exists msg : string,
    _parse_input user_input = Raise (ValueError msg)
    /\ (forall a b : float,
        validate_number sa = Return a ->
        validate_number sb = Return b ->
        msg = "Unsupported operation: " +:+ sop
              +:+ ". Available: *, +, -, /, add, addition, div, divide, division, mul, multiplication, multiply, sub, subtract, subtraction").
Proof.
  intros Hsplit Hop. unfold _parse_input. rewrite Hsplit.
  destruct (validate_number sa) as [a|ea] eqn:Ha.
  - destruct (validate_number sb) as [b|eb] eqn:Hb; simpl.
    + rewrite Hop. simpl. eexists. split; [reflexivity|].
      intros a' b' _ _. reflexivity.
    + rewrite (validate_number_raises _ _ Hb). eexists. split; [reflexivity|].
      intros a' b' _ Hb'. discriminate Hb'.
  - simpl. rewrite (validate_number_raises _ _ Ha). eexists.
    split; [reflexivity|]. intros a' b' Ha' _. discriminate Ha'.
Qed.

(** The operator that [_parse_input] returns is a key of the registry:
    the part it validated has no whitespace to trim, so the lower-cased
    part that is looked up later is the text that was tested. *)
Lemma parsed_operator_known (user_input : string) (a b : float) (op : string) :
  _parse_input user_input = Return (a, op, b) ->
  exists o : Operation, Operations.dict_get Operations.OPERATIONS op = Some o.
Proof.
  unfold _parse_input. intros Hparse.
  pose proof (split_from_tokens user_input EmptyString eq_refl) as Htokens.
  fold (Str.split user_input) in Htokens.
  destruct (Str.split user_input) as [|sa [|sop [|sb [|]]]]; try discriminate.
  destruct (validate_number sa) as [a'|]; [|discriminate].
  destruct (validate_number sb) as [b'|]; [|discriminate]. simpl in Hparse.
  destruct (validate_operation sop) eqn:Hop; [|discriminate]. simpl in Hparse.
  injection Hparse as -> <- ->.
  apply Forall_cons in Htokens as [_ Htokens].
  apply Forall_cons in Htokens as [Hsop _].
  unfold validate_operation in Hop.
  rewrite strip_no_space in Hop by (by rewrite has_space_lower).
  by apply dict_mem_get.
Qed.

(** C8. Two aliases bound to the same operation give the same outcome on
    every pair of operands, which is that of the operation's [compute].
    An operator is accepted exactly when, lower-cased and trimmed, it is
    one of the fifteen keys of the registry, and the operator of a line
    that was accepted is always found in the registry afterwards.  A
    three-part line whose operator is not accepted is answered with an
    "Input error" and nothing else changes: the calculator and the store
    stay as they were; when both operands are valid numbers the error is
    the "Unsupported operation" message that lists the keys (operands are
    validated first).  A direct lookup of a text that is no key is caught
    as well and reported as a calculation error. *)
Theorem aliases_agree_unknown_reported :
  (forall (op : Operation) (k1 k2 : string) (a b : float),
     In k1 (Operations.aliases op) -> In k2 (Operations.aliases op) ->
     compute_calculation a k1 b = compute_calculation a k2 b
     /\ (o ← Operations.dict_get Operations.OPERATIONS k1;
         Some (Operations.compute o a b))
        = Some (Operations.compute op a b)
     /\ (o ← Operations.dict_get Operations.OPERATIONS k2;
         Some (Operations.compute o a b))
        = Some (Operations.compute op a b))
  /\ (forall operation : string,
       validate_operation operation = true
       <-> In (Str.strip (Str.lower operation))
             [ "+"; "add"; "addition"; "-"; "sub"; "subtract"; "subtraction";
               "*"; "mul"; "multiply"; "multiplication";
               "/"; "div"; "divide"; "division" ])
  /\ (forall (user_input op : string) (a b : float),
       _parse_input user_input = Return (a, op, b) ->
       exists o : Operation,
         Operations.dict_get Operations.OPERATIONS op = Some o)
  /\ (forall (user_input sa sop sb : string) (m : machine),
       Str.split user_input = [sa; sop; sb] ->
       validate_operation sop = false ->
       exists msg : string,
         _handle_calculation_input user_input m
         = prints [ "Input error: " +:+ msg;
                    "Please use format: <number> <operation> <number>";
                    "Example: 5 + 3" ] m
         /\ heap (_handle_calculation_input user_input m) = heap m
         /\ self (_handle_calculation_input user_input m) = self m
         /\ (forall a b : float,
              validate_number sa = Return a ->
              validate_number sb = Return b ->
              msg = "Unsupported operation: " +:+ sop
                    +:+ ". Available: *, +, -, /, add, addition, div, divide, division, mul, multiplication, multiply, sub, subtract, subtraction"))
  /\ (forall (operation_str : string) (a b : float) (m : machine),
       Operations.dict_get Operations.OPERATIONS operation_str = None ->
       _perform_calculation a operation_str b m
       = (None, print ("Calculation error: " +:+ repr_of_str operation_str) m)).
Proof.
  split; [|split; [|split; [|split]]].
  - intros op k1 k2 a b Hk1 Hk2. unfold compute_calculation.
    by rewrite (alias_lookup op k1 Hk1), (alias_lookup op k2 Hk2).
  - intros operation. unfold validate_operation. by rewrite dict_mem_keys.
  - intros user_input op a b. apply parsed_operator_known.
  - intros user_input sa sop sb m Hsplit Hop.
    destruct (parse_unknown_operator user_input sa sop sb Hsplit Hop)
      as (msg & Hparse & Hmsg).
    exists msg.
    assert (Hout : _handle_calculation_input user_input m
      = prints [ "Input error: " +:+ msg;
                 "Please use format: <number> <operation> <number>";
                 "Example: 5 + 3" ] m).
    { unfold _handle_calculation_input, calculation_input_body.
      by rewrite Hparse. }
    rewrite Hout. split; [done|]. split; [done|]. split; [done|].
    exact Hmsg.
  - intros operation_str a b m Hnone.
    unfold _perform_calculation, compute_calculation. by rewrite Hnone.
Qed.

(** *** Displaying the history *)

Lemma set_calc_same (σ : store) (l : loc) (c : Calculation) :
  calcs σ !! l = Some c -> Store.set_calc σ l c = σ.
Proof.
  intros Hc. destruct σ as [cs ls]. unfold Store.set_calc. simpl in *.
  by rewrite insert_id.
Qed.

Lemma str_at_settled (σ : store) (l : loc) (c : Calculation) (sym : string)
    (r : float) :
  calcs σ !! l = Some c ->
  get_symbol (operation c) = Some sym ->
  _result c = Some r ->
  str_at l σ = (Return (shown c sym r), σ).
Proof.
  intros Hc Hsym Hr. unfold str_at, Calculation_str. rewrite Hc, Hsym.
  rewrite (result_cached c r Hr). by rewrite set_calc_same.
Qed.

Lemma set_heap_same (m : machine) : set_heap (heap m) m = m.
Proof. by destruct m. Qed.

Lemma prints_cons (line : string) (lines : list string) (m : machine) :
  prints (line :: lines) m = prints lines (print line m).
Proof. done. Qed.

Lemma stdout_prints (lines : list string) :
  forall m : machine, stdout (prints lines m) = stdout m ++ (Print <$> lines).
Proof.
  induction lines as [|line lines IH]; intros m.
  - simpl. by rewrite app_nil_r.
  - rewrite prints_cons, IH. simpl. by rewrite <- app_assoc.
Qed.

Lemma heap_prints (lines : list string) :
  forall m : machine, heap (prints lines m) = heap m /\ self (prints lines m) = self m.
Proof.
  induction lines as [|line lines IH]; intros m; [done|].
  rewrite prints_cons. by destruct (IH (print line m)) as [-> ->].
Qed.

Lemma display_entries_settled (entries : list loc) :
  forall (i : nat) (m : machine),
    Forall (settled (heap m)) entries ->
    display_entries i entries m
    = (Return (), prints (numbered (heap m) i entries) m).
Proof.
  induction entries as [|l entries IH]; intros i m Hall; [done|].
  apply Forall_cons in Hall as [(c & sym & r & Hc & Hsym & Hr) Hall]. simpl.
  rewrite (str_at_settled _ _ c sym r Hc Hsym Hr), set_heap_same.
  rewrite IH by done. unfold entry_line. by rewrite Hc, Hsym, Hr.
Qed.

Lemma numbered_lookup (σ : store) (entries : list loc) :
  forall (i k : nat) (l : loc),
    entries !! k = Some l ->
    numbered σ i entries !! k = Some (entry_line σ (i + k) l).
Proof.
  induction entries as [|l' entries IH]; intros i k l Hk; [done|].
  destruct k as [|k]; simpl in *.
  - injection Hk as ->. by rewrite Nat.add_0_r.
  - rewrite (IH (S i) k l Hk). f_equal. f_equal. lia.
Qed.

Lemma numbered_same_calcs (σ σ' : store) (entries : list loc) :
  calcs σ = calcs σ' ->
  forall i : nat, numbered σ i entries = numbered σ' i entries.
Proof.
  intros Hcalcs. induction entries as [|l entries IH]; intros i; [done|].
  simpl. rewrite IH. unfold entry_line. by rewrite Hcalcs.
Qed.

Lemma stdout_print (line : string) (m : machine) :
  stdout (print line m) = stdout m ++ [Print line].
Proof. done. Qed.

(** What [_display_history] prints for a history that is not empty and
    whose entries are all settled. *)
Lemma display_history_settled (m : machine) :
  let entries := Store.list_at (heap m) (_history (history (self m))) in
  entries <> [] ->
  Forall (settled (heap m)) entries ->
  (_display_history m).1 = Return ()
  /\ stdout (_display_history m).2
     = stdout m
       ++ (Print <$> [nl +:+ rule 30; "CALCULATION HISTORY"; rule 30])
       ++ (Print <$> numbered (heap m) 1 entries)
       ++ [Print (rule 30)].
Proof.
  intros entries Hne Hall. unfold _display_history, History.__bool__.
  fold entries. destruct entries as [|l0 rest] eqn:Hentries; [done|]. simpl negb.
  cbv iota.
  set (m1 := prints _ m).
  assert (Hm1 : heap m1 = heap m /\ self m1 = self m) by apply heap_prints.
  destruct Hm1 as [Hheap Hself]. rewrite Hself, Hheap.
  destruct (History.get_history (history (self m)) (heap m)) as [copy σ'] eqn:Hget.
  assert (Hcontents : Store.list_at σ' copy = l0 :: rest).
  { pose proof (get_history_contents (history (self m)) (heap m)) as Hgc.
    rewrite Hget in Hgc. simpl in Hgc. by rewrite Hgc. }
  assert (Hcalcs : calcs σ' = calcs (heap m)).
  { pose proof (get_history_calcs (history (self m)) (heap m)) as Hgc.
    by rewrite Hget in Hgc. }
  simpl heap. rewrite Hcontents.
  rewrite display_entries_settled.
  2:{ simpl. eapply Forall_impl; [exact Hall|].
      intros l (c & sym & r & Hc & Hsym & Hr). exists c, sym, r.
      by rewrite Hcalcs. }
  rewrite (numbered_same_calcs σ' (heap m)) by done.
  split; [done|]. cbn [snd heap set_heap].
  rewrite stdout_print, stdout_prints. cbn [stdout set_heap].
  unfold m1. rewrite stdout_prints. by rewrite <- !app_assoc.
Qed.

(** What the five commands do, for such a line. *)
Lemma exact_commands (text : string) (m : machine) :
  (Str.lower (Str.strip text) = "exit" \/ Str.lower (Str.strip text) = "quit" ->
     turn text m = set_running false (print "Goodbye!" m)
     /\ forall stdin, loop stdin (turn text m) = turn text m)
  /\ (Str.lower (Str.strip text) = "help" ->
      turn text m = prints help_text m)
  /\ (Str.lower (Str.strip text) = "clear" ->
      turn text m = _clear_history m
      /\ History.__len__ (history (self (turn text m))) (heap (turn text m)) = 0%nat
      /\ stdout (turn text m) = stdout m ++ [Print "Calculation history cleared."])
  /\ (Str.lower (Str.strip text) = "history" ->
      (Store.list_at (heap m) (_history (history (self m))) = [] ->
       turn text m = print "No calculations in history." m)
      /\ (Store.list_at (heap m) (_history (history (self m))) <> [] ->
          Forall (settled (heap m))
            (Store.list_at (heap m) (_history (history (self m)))) ->
          stdout (turn text m)
          = stdout m
            ++ (Print <$> [nl +:+ rule 30; "CALCULATION HISTORY"; rule 30])
            ++ (Print <$> numbered (heap m) 1
                            (Store.list_at (heap m) (_history (history (self m)))))
            ++ [Print (rule 30)])).
Proof.
  split; [|split; [|split]].
  - intros Hcmd.
    assert (Hturn : turn text m = set_running false (print "Goodbye!" m)).
    { destruct Hcmd as [Hcmd|Hcmd];
        rewrite (exact_command_dispatched text _ m Hcmd); try reflexivity;
        simpl; tauto. }
    split; [done|]. intros stdin. rewrite Hturn. by destruct stdin.
  - intros Hcmd. rewrite (exact_command_dispatched text _ m Hcmd);
      [reflexivity | simpl; tauto].
  - intros Hcmd.
    assert (Hturn : turn text m = _clear_history m).
    { rewrite (exact_command_dispatched text _ m Hcmd);
        [reflexivity | simpl; tauto]. }
    rewrite Hturn. split; [done|]. split; [|done].
    unfold _clear_history, History.__len__, History.clear_history. simpl.
    by rewrite list_at_set_list.
  - intros Hcmd.
    assert (Hturn : turn text m
      = match _display_history m with
        | (Return _, m') => m'
        | (Raise e, m') =>
            prints [ "Unexpected error: " +:+ exn_str e;
                     "Please try again or type 'help' for assistance." ] m'
        end).
    { rewrite (exact_command_dispatched text _ m Hcmd);
        [reflexivity | simpl; tauto]. }
    split.
    + intros Hempty. rewrite Hturn. unfold _display_history, History.__bool__.
      by rewrite Hempty.
    + intros Hne Hall. rewrite Hturn.
      destruct (display_history_settled m Hne Hall) as [Hret Hout].
      destruct (_display_history m) as [[[]|e] m']; [done | discriminate Hret].
Qed.

(** C10. The list that [get_history()] returns holds the very objects that
    the history holds.  Take the entry at some index of the copy and
    assign a value to its cached result: the history still holds that
    object at that index, a later [get_history()] returns it there too,
    and it is the changed object; [str] of it, which is what the history
    display prints for the entry, shows the assigned value, and so does
    the line that [_display_history] prints for it when all entries are
    settled. *)
Theorem get_history_shares_calculations (m : machine) (k : nat) (l : loc)
    (c : Calculation) (sym : string) (r' : float) :
  let self_history := history (self m) in
  Store.list_at (heap m) (_history self_history) !! k = Some l ->
  calcs (heap m) !! l = Some c ->
  get_symbol (operation c) = Some sym ->
  let copy := (History.get_history self_history (heap m)).1 in
  let σ1 := (History.get_history self_history (heap m)).2 in
  let c' := Calc.set_result c (Some r') in
  let σ2 := Store.set_calc σ1 l c' in
  Store.list_at σ1 copy !! k = Some l
  /\ calcs σ1 !! l = Some c
  /\ Store.list_at σ2 (_history self_history) !! k = Some l
  /\ Store.list_at (History.get_history self_history σ2).2
                   (History.get_history self_history σ2).1 !! k = Some l
  /\ calcs (History.get_history self_history σ2).2 !! l = Some c'
  /\ str_at l σ2 = (Return (shown c sym r'), σ2)
  /\ (Forall (settled σ2) (Store.list_at σ2 (_history self_history)) ->
      (_display_history (set_heap σ2 m)).1 = Return ()
      /\ exists before after : list stdout_event,
          stdout (_display_history (set_heap σ2 m)).2
          = before
            ++ [Print (Str.format_2d (1 + k) +:+ ". " +:+ shown c sym r')]
            ++ after).
Proof.
  intros self_history Hk Hc Hsym copy σ1 c' σ2.
  assert (Hcopy : Store.list_at σ1 copy !! k = Some l).
  { unfold σ1, copy. by rewrite get_history_contents. }
  assert (Hc1 : calcs σ1 !! l = Some c) by done.
  assert (Hlists2 : Store.list_at σ2 (_history self_history)
                    = Store.list_at (heap m) (_history self_history)).
  { unfold σ2, Store.list_at. simpl.
    change (Store.list_at σ1 (_history self_history)
            = Store.list_at (heap m) (_history self_history)).
    unfold σ1. apply get_history_keeps.
    unfold Store.list_at in Hk.
    destruct (lists (heap m) !! _history self_history); [by eexists|done]. }
  assert (Hc2 : calcs σ2 !! l = Some c').
  { unfold σ2. simpl. by rewrite lookup_insert_eq. }
  assert (Hstr : str_at l σ2 = (Return (shown c sym r'), σ2)).
  { by apply (str_at_settled σ2 l c' sym r'). }
  split; [exact Hcopy|]. split; [exact Hc1|].
  split; [rewrite Hlists2; exact Hk|].
  split; [rewrite get_history_contents, Hlists2; exact Hk|].
  split; [exact Hc2|]. split; [exact Hstr|].
  intros Hall.
  assert (Hk2 : Store.list_at (heap (set_heap σ2 m))
                  (_history (history (self (set_heap σ2 m)))) !! k = Some l).
  { cbn [heap self set_heap]. fold self_history. rewrite Hlists2. exact Hk. }
  destruct (display_history_settled (set_heap σ2 m)) as [Hret Hout].
  { intros Hnil. rewrite Hnil in Hk2. discriminate Hk2. }
  { exact Hall. }
  split; [exact Hret|]. rewrite Hout.
  pose proof (numbered_lookup (heap (set_heap σ2 m)) _ 1 k l Hk2) as Hline.
  apply list_elem_of_split_length in Hline as (before & after & Hnum & _).
  rewrite Hnum. unfold entry_line. cbn [heap set_heap]. rewrite Hc2.
  unfold c'. cbn [operation _result Calc.set_result]. rewrite Hsym.
  exists (stdout (set_heap σ2 m)
          ++ (Print <$> [nl +:+ rule 30; "CALCULATION HISTORY"; rule 30])
          ++ (Print <$> before)),
         ((Print <$> after) ++ [Print (rule 30)]).
  rewrite fmap_app, fmap_cons, <- !app_assoc. reflexivity.
Qed.

End Properties.


(** * Further properties *)

(** ** Strings *)

Lemma lower_char_twice (c : ascii) :
  Str.lower_char (Str.lower_char c) = Str.lower_char c.
Proof.
  destruct c as [b0 b1 b2 b3 b4 b5 b6 b7].
  destruct b0, b1, b2, b3, b4, b5, b6, b7; reflexivity.
Qed.

Lemma lower_twice (s : string) : Str.lower (Str.lower s) = Str.lower s.
Proof.
  induction s as [|c s IH]; simpl; [done|]. by rewrite lower_char_twice, IH.
Qed.

Lemma lower_lstrip (s : string) :
  Str.lower (Str.lstrip s) = Str.lstrip (Str.lower s).
Proof.
  induction s as [|c s IH]; simpl; [done|].
  rewrite isspace_lower_char. by destruct (Str.isspace c).
Qed.

Lemma lower_rstrip (s : string) :
  Str.lower (Str.rstrip s) = Str.rstrip (Str.lower s).
Proof.
  induction s as [|c s IH]; simpl; [done|].
  rewrite <- IH, isspace_lower_char.
  destruct (Str.rstrip s); simpl; [by destruct (Str.isspace c) | done].
Qed.

Lemma lower_strip (s : string) :
  Str.lower (Str.strip s) = Str.strip (Str.lower s).
Proof. unfold Str.strip. by rewrite lower_rstrip, lower_lstrip. Qed.

Lemma lstrip_starts_clean (s : string) : Str.starts_clean (Str.lstrip s) = true.
Proof.
  induction s as [|c s IH]; simpl; [done|].
  destruct (Str.isspace c) eqn:Hc; [done|]. simpl. by rewrite Hc.
Qed.

Lemma lstrip_clean (s : string) :
  Str.starts_clean s = true -> Str.lstrip s = s.
Proof.
  destruct s as [|c s]; simpl; [done|]. by intros ->%negb_true_iff.
Qed.

Lemma rstrip_starts_clean (s : string) :
  Str.starts_clean s = true -> Str.starts_clean (Str.rstrip s) = true.
Proof.
  destruct s as [|c s]; simpl; [done|]. intros Hc.
  apply negb_true_iff in Hc. rewrite Hc. by destruct (Str.rstrip s); simpl; rewrite Hc.
Qed.

Lemma rstrip_twice (s : string) : Str.rstrip (Str.rstrip s) = Str.rstrip s.
Proof.
  induction s as [|c s IH]; simpl; [done|].
  destruct (Str.rstrip s) as [|d r] eqn:Hr.
  - destruct (Str.isspace c) eqn:Hc; simpl; [done | by rewrite Hc].
  - change (Str.rstrip (String c (String d r))) with
      (match Str.rstrip (String d r) with
       | EmptyString => if Str.isspace c then EmptyString else String c EmptyString
       | r' => String c r'
       end).
    by rewrite IH.
Qed.

Lemma strip_starts_clean (s : string) : Str.starts_clean (Str.strip s) = true.
Proof. apply rstrip_starts_clean, lstrip_starts_clean. Qed.

Lemma strip_twice (s : string) : Str.strip (Str.strip s) = Str.strip s.
Proof.
  unfold Str.strip at 1.
  rewrite (lstrip_clean _ (strip_starts_clean s)).
  unfold Str.strip. apply rstrip_twice.
Qed.

Lemma lstrip_all_space (s : string) :
  Str.all_space s = true -> Str.lstrip s = EmptyString.
Proof.
  induction s as [|c s IH]; simpl; [done|].
  intros [-> Hs]%andb_true_iff. by apply IH.
Qed.

Lemma strip_empty_iff (s : string) :
  Str.strip s = EmptyString <-> Str.all_space s = true.
Proof.
  split.
  - unfold Str.strip. induction s as [|c s IH]; simpl; [done|].
    destruct (Str.isspace c) eqn:Hc; [exact IH|].
    simpl. rewrite Hc. by destruct (Str.rstrip s).
  - intros Hs. unfold Str.strip. by rewrite lstrip_all_space.
Qed.

Lemma split_from_started (s : string) :
  forall w : string, w <> EmptyString -> Str.split_from w s <> [].
Proof.
  induction s as [|c s IH]; intros w Hw; simpl.
  - by destruct w.
  - destruct (Str.isspace c).
    + by destruct w.
    + apply IH. by destruct w.
Qed.

(** A trimmed text that is not empty has a first part. *)
Lemma split_strip_nonempty (s : string) :
  Str.strip s <> EmptyString -> Str.split (Str.strip s) <> [].
Proof.
  intros Hne. pose proof (strip_starts_clean s) as Hclean.
  destruct (Str.strip s) as [|c u]; [done|]. simpl in Hclean.
  apply negb_true_iff in Hclean. unfold Str.split. simpl. rewrite Hclean.
  by apply split_from_started.
Qed.

(** ** Operations and the registry *)

(** [Addition.compute] and [Multiplication.compute] do not depend on the
    order of their operands, and [Subtraction.compute(a, b)] is
    [Addition.compute(a, -b)]. *)
Theorem addition_multiplication_commute (a b : float) :
  Operations.Addition_compute a b = Operations.Addition_compute b a
  /\ Operations.Multiplication_compute a b = Operations.Multiplication_compute b a
  /\ Operations.Subtraction_compute a b = Operations.Addition_compute a (SFopp b).
Proof.
  unfold Operations.Addition_compute, Operations.Multiplication_compute,
    Operations.Subtraction_compute, Float.add, Float.mul, Float.sub.
  split; [|split]; f_equal.
  - destruct a as [sa|sa| |sa ma ea], b as [sb|sb| |sb mb eb];
      try reflexivity; try (by destruct sa, sb).
    unfold SFadd. by rewrite Z.min_comm, Z.add_comm.
  - destruct a as [sa|sa| |sa ma ea], b as [sb|sb| |sb mb eb];
      try reflexivity; try (by destruct sa, sb).
    unfold SFmul. by rewrite Pos.mul_comm, Z.add_comm, xorb_comm.
  - destruct a as [sa|sa| |sa ma ea], b as [sb|sb| |sb mb eb];
      try reflexivity; by destruct sa, sb.
Qed.

(** An operation of the registry raises only when it is the division and
    the divisor is zero, and then it raises the division-by-zero error. *)
Theorem registry_raises_only_on_zero_division (op : Operation) (a b : float) :
  ((exists e, Operations.compute op a b = Raise e)
   <-> op = Division /\ Float.eqb b Float.zero = true)
  /\ (forall e, Operations.compute op a b = Raise e ->
       e = ZeroDivisionError "Cannot divide by zero").
Proof.
  split.
  - split.
    + intros [e He]. destruct op; try discriminate He. split; [done|].
      simpl in He. rewrite Division_compute_eq in He.
      by destruct (Float.eqb b Float.zero).
    + intros [-> Hb]. simpl. rewrite Division_compute_eq, Hb. by eexists.
  - intros e He. destruct op; try discriminate He.
    simpl in He. rewrite Division_compute_eq in He.
    destruct (Float.eqb b Float.zero); congruence.
Qed.

(** Looking an operation's symbol up in the registry gives the operation
    back; distinct operations have distinct symbols; every key of the
    registry is lower-case and free of whitespace, so it is accepted as it
    is and found under the text that was accepted. *)
Theorem symbol_finds_operation :
  (forall op : Operation,
     Operations.dict_get Operations.OPERATIONS (Operations.symbol op) = Some op
     /\ In (Operations.symbol op) (Operations.aliases op)
     /\ validate_operation (Operations.symbol op) = true)
  /\ (forall op op' : Operation,
       Operations.symbol op = Operations.symbol op' -> op = op')
  /\ (forall (k : string) (op : Operation),
       Operations.dict_get Operations.OPERATIONS k = Some op ->
       Str.lower k = k /\ Str.strip k = k /\ In k (Operations.aliases op)
       /\ validate_operation k = true).
Proof.
  split; [|split].
  - intros op. destruct op; repeat split; vm_compute; tauto.
  - intros op op' Hsym. destruct op, op'; try reflexivity; discriminate Hsym.
  - intros k op Hk.
    assert (Hin : In k (Operations.keys Operations.OPERATIONS)).
    { apply dict_mem_keys. unfold Operations.dict_mem. by rewrite Hk. }
    simpl in Hin.
    repeat (destruct Hin as [<-|Hin];
            [ vm_compute in Hk; injection Hk as <-;
              repeat split; vm_compute; tauto |]).
    contradiction.
Qed.

(** ** Validators *)

Lemma existsb_eqb_In (s : string) (xs : list string) :
  existsb (String.eqb s) xs = true <-> In s xs.
Proof.
  rewrite existsb_exists. split.
  - intros (x & Hx & ->%String.eqb_eq). done.
  - intros Hs. exists s. by rewrite String.eqb_refl.
Qed.

(** The two tests of [InputValidator] on words only look at the text
    lower-cased and trimmed: lower-casing or trimming the argument first
    changes nothing.  A command is one of the five words, and no text is
    both a command and an operation. *)
Theorem validators_ignore_case_and_padding (s : string) :
  validate_operation (Str.lower s) = validate_operation s
  /\ validate_operation (Str.strip s) = validate_operation s
  /\ validate_command (Str.lower s) = validate_command s
  /\ validate_command (Str.strip s) = validate_command s
  /\ (validate_command s = true
      <-> In (Str.strip (Str.lower s)) ["help"; "history"; "exit"; "quit"; "clear"])
  /\ (validate_command s = true -> validate_operation s = false).
Proof.
  unfold validate_operation, validate_command.
  rewrite lower_twice, <- (lower_strip s), <- (lower_strip (Str.strip s)), strip_twice.
  repeat split; try reflexivity.
  - by intros ?%existsb_eqb_In.
  - by intros ?%existsb_eqb_In.
  - intros Hcmd%existsb_eqb_In. unfold valid_commands in Hcmd.
    repeat (destruct Hcmd as [<-|Hcmd]; [reflexivity|]). contradiction.
Qed.

(** ** Calculation *)

(** A division by zero passes the factory and is raised by the read of
    [result]; the read leaves the object without a result, so every
    further read raises again. *)
Theorem zero_division_raised_on_each_read (a b : float) :
  Float.eqb b Float.zero = true ->
  let c := {| operand_a := a; operand_b := b;
              operation := Operations.instance Division; _result := None |} in
  create_calculation (PFloat a) (PFloat b) (Operations.instance Division) = Return c
  /\ Calc.result c = (Raise (ZeroDivisionError "Cannot divide by zero"), c)
  /\ forall n : nat,
       perform (replicate n ReadResult) c
       = (replicate n (Raise (ZeroDivisionError "Cannot divide by zero")), c).
Proof.
  intros Hb c.
  assert (Hread : Calc.result c
                  = (Raise (ZeroDivisionError "Cannot divide by zero"), c)).
  { unfold Calc.result. simpl. by rewrite Division_compute_eq, Hb. }
  split; [done|]. split; [done|].
  intros n. induction n as [|n IH]; simpl; [done|]. by rewrite Hread, IH.
Qed.

(** ** CalculationHistory *)

(** The last calculation is the one appended last, and there is none
    exactly when the history is empty. *)
Theorem last_calculation_is_latest (self : CalculationHistory) (σ : store)
    (l : loc) :
  History.get_last_calculation self
    (History.add_calculation self (PCalculation l) σ).2 = Some l
  /\ History.__len__ self (History.add_calculation self (PCalculation l) σ).2
     = S (History.__len__ self σ)
  /\ History.__bool__ self (History.add_calculation self (PCalculation l) σ).2
     = true
  /\ (History.get_last_calculation self σ = None <-> History.__len__ self σ = 0%nat)
  /\ (History.__bool__ self σ = false <-> History.__len__ self σ = 0%nat).
Proof.
  unfold History.get_last_calculation, History.__len__, History.__bool__.
  simpl. rewrite list_at_set_list.
  split; [apply last_snoc|]. split; [rewrite length_app; simpl; lia|].
  split; [by destruct (Store.list_at σ (_history self))|].
  split.
  - rewrite last_None. by destruct (Store.list_at σ (_history self)).
  - by destruct (Store.list_at σ (_history self)).
Qed.

(** Clearing empties the history and nothing else: a copy that
    [get_history()] returned before still holds the entries, and the
    calculations themselves stay in the store. *)
Theorem clear_history_keeps_copies (self : CalculationHistory) (σ : store) :
  is_Some (lists σ !! _history self) ->
  let copy := (History.get_history self σ).1 in
  let σ1 := (History.get_history self σ).2 in
  let σ2 := History.clear_history self σ1 in
  History.__len__ self σ2 = 0%nat
  /\ History.__bool__ self σ2 = false
  /\ History.get_last_calculation self σ2 = None
  /\ Store.list_at (History.get_history self σ2).2 (History.get_history self σ2).1
     = []
  /\ Store.list_at σ2 copy = Store.list_at σ (_history self)
  /\ calcs σ2 = calcs σ.
Proof.
  intros Hself copy σ1 σ2.
  assert (Hempty : Store.list_at σ2 (_history self) = []).
  { unfold σ2, History.clear_history. apply list_at_set_list. }
  unfold History.__len__, History.__bool__, History.get_last_calculation.
  rewrite get_history_contents, Hempty.
  repeat split.
  unfold σ2, History.clear_history.
  rewrite list_at_set_list_ne.
  - unfold σ1, copy. apply get_history_contents.
  - intros Heq. by apply (get_history_new self σ Hself).
Qed.

(** A history created later is another object: it starts empty, and
    appending to or clearing either history leaves the other as it is. *)
Theorem histories_do_not_interfere (self : CalculationHistory) (σ : store) :
  is_Some (lists σ !! _history self) ->
  let other := (History.__init__ σ).1 in
  let σ' := (History.__init__ σ).2 in
  _history other <> _history self
  /\ Store.list_at σ' (_history other) = []
  /\ Store.list_at σ' (_history self) = Store.list_at σ (_history self)
  /\ (forall v : pyval,
       Store.list_at (History.add_calculation other v σ').2 (_history self)
       = Store.list_at σ (_history self))
  /\ (forall v : pyval,
       Store.list_at (History.add_calculation self v σ').2 (_history other) = [])
  /\ Store.list_at (History.clear_history other σ') (_history self)
     = Store.list_at σ (_history self)
  /\ Store.list_at (History.clear_history self σ') (_history other) = [].
Proof.
  intros [xs Hxs] other σ'.
  assert (Hnew : _history other <> _history self).
  { unfold other, History.__init__. simpl. intros Heq.
    pose proof (alloc_list_is_new σ []) as Hfresh. simpl in Hfresh.
    rewrite Heq in Hfresh. congruence. }
  assert (Hother : Store.list_at σ' (_history other) = []).
  { unfold σ', other, History.__init__. simpl. apply list_at_set_list. }
  assert (Hself : Store.list_at σ' (_history self) = Store.list_at σ (_history self)).
  { unfold σ', History.__init__. simpl. by apply list_at_set_list_ne. }
  split; [done|]. split; [done|]. split; [done|]. split; [|split; [|split]].
  - intros v. destruct v; simpl; try done. by rewrite list_at_set_list_ne.
  - intros v. destruct v; simpl; try done. by rewrite list_at_set_list_ne.
  - unfold History.clear_history. by rewrite list_at_set_list_ne.
  - unfold History.clear_history. by rewrite list_at_set_list_ne.
Qed.

(** ** The REPL *)

Section Further.
Context `{Builtins}.

(** [validate_number] accepts a text exactly when it accepts the text
    trimmed, with the same float; only the error message keeps the
    padding. *)
Theorem validate_number_ignores_padding (value : string) :
  (forall r : float,
     validate_number (Str.strip value) = Return r
     <-> validate_number value = Return r)
  /\ ((exists e, validate_number value = Raise e)
      <-> (exists e, validate_number (Str.strip value) = Raise e))
  /\ (forall e, validate_number value = Raise e ->
       e = ValueError ("'" +:+ value +:+ "' is not a valid number")).
Proof.
  rewrite !validate_number_eq, strip_twice.
  destruct (float_of_str (Str.strip value)) as [r|].
  - destruct (Float.is_finite r).
    + split; [done|]. split; [|intros e He; discriminate He].
      split; intros [e He]; discriminate He.
    + split; [by split|]. split; [split; eauto|]. by intros e [= <-].
  - split; [by split|]. split; [split; eauto|]. by intros e [= <-].
Qed.

(** [str] of a calculation that holds no result yet computes it and
    stores it; the text is "a symbol b = result"; [repr] shows [None]
    before and the result after, and computes nothing. *)
Theorem str_computes_and_caches (c : Calculation)
    (f : float -> float -> outcome float) (sym : string) (r : float) :
  _result c = None ->
  get_compute (operation c) = Some f ->
  get_symbol (operation c) = Some sym ->
  f (operand_a c) (operand_b c) = Return r ->
  Calculation_str c
  = (Return (str_of_float (operand_a c) +:+ " " +:+ sym +:+ " "
             +:+ str_of_float (operand_b c) +:+ " = " +:+ str_of_float r),
     Calc.set_result c (Some r))
  /\ Calculation_str (Calc.set_result c (Some r))
     = (Return (str_of_float (operand_a c) +:+ " " +:+ sym +:+ " "
                +:+ str_of_float (operand_b c) +:+ " = " +:+ str_of_float r),
        Calc.set_result c (Some r))
  /\ Calculation_repr c
     = "Calculation(operand_a=" +:+ str_of_float (operand_a c)
       +:+ ", operand_b=" +:+ str_of_float (operand_b c)
       +:+ ", operation=" +:+ type_name (operation c)
       +:+ ", result=None)"
  /\ Calculation_repr (Calculation_str c).2
     = "Calculation(operand_a=" +:+ str_of_float (operand_a c)
       +:+ ", operand_b=" +:+ str_of_float (operand_b c)
       +:+ ", operation=" +:+ type_name (operation c)
       +:+ ", result=" +:+ str_of_float r +:+ ")".
Proof.
  intros Hnone Hf Hsym Hr.
  assert (Hstr : Calculation_str c
    = (Return (str_of_float (operand_a c) +:+ " " +:+ sym +:+ " "
               +:+ str_of_float (operand_b c) +:+ " = " +:+ str_of_float r),
       Calc.set_result c (Some r))).
  { unfold Calculation_str, Calc.result. by rewrite Hsym, Hnone, Hf, Hr. }
  split; [exact Hstr|]. split.
  - unfold Calculation_str. simpl. by rewrite Hsym.
  - split.
    + unfold Calculation_repr. by rewrite Hnone.
    + by rewrite Hstr.
Qed.

(** *** Calculation lines *)

Lemma parse_raises_value_error (user_input : string) (e : exn) :
  _parse_input user_input = Raise e -> exists msg, e = ValueError msg.
Proof.
  unfold _parse_input.
  destruct (Str.split user_input) as [|sa [|sop [|sb [|]]]];
    try (intros [= <-]; by eexists).
  destruct (validate_number sa) as [a|ea] eqn:Ha; simpl.
  - destruct (validate_number sb) as [b|eb] eqn:Hb; simpl.
    + destruct (validate_operation sop); simpl; [discriminate|].
      intros [= <-]. by eexists.
    + intros [= <-]. rewrite (validate_number_raises _ _ Hb). by eexists.
  - intros [= <-]. rewrite (validate_number_raises _ _ Ha). by eexists.
Qed.

Lemma compute_calculation_found (a b : float) (operation_str : string)
    (op : Operation) :
  Operations.dict_get Operations.OPERATIONS operation_str = Some op ->
  compute_calculation a operation_str b
  = match Operations.compute op a b with
    | Return r => Return (computed a b op r)
    | Raise e => Raise e
    end.
Proof.
  intros Hop. unfold compute_calculation. rewrite Hop.
  rewrite create_calculation_checked; try done; try by eexists.
  simpl. unfold Calc.result. simpl. by destruct (Operations.compute op a b).
Qed.

Lemma calculation_recorded (user_input : string) (m : machine) (a b : float)
    (operation_str : string) (op : Operation) (r : float) :
  _parse_input user_input = Return (a, operation_str, b) ->
  Operations.dict_get Operations.OPERATIONS operation_str = Some op ->
  Operations.compute op a b = Return r ->
  _handle_calculation_input user_input m
  = print ("Result: " +:+ shown (computed a b op r) (Operations.symbol op) r)
      (set_heap (recorded m (computed a b op r)) m).
Proof.
  intros Hparse Hop Hr.
  unfold _handle_calculation_input, calculation_input_body, _perform_calculation.
  rewrite Hparse, (compute_calculation_found a b operation_str op Hop), Hr.
  cbn [Store.alloc_calc History.add_calculation heap self].
  change (Store.set_list (Store.set_calc (heap m) (fresh (dom (calcs (heap m))))
            (computed a b op r)) (_history (history (self m)))
            (Store.list_at
               (Store.set_calc (heap m) (fresh (dom (calcs (heap m))))
                  (computed a b op r)) (_history (history (self m)))
             ++ [fresh (dom (calcs (heap m)))]))
    with (recorded m (computed a b op r)).
  rewrite (str_at_settled _ _ (computed a b op r) (Operations.symbol op) r).
  - done.
  - unfold recorded. simpl. by rewrite lookup_insert_eq.
  - by destruct op.
  - done.
Qed.

(** The three ways a calculation line can end. *)
Lemma calculation_line_cases (user_input : string) (m : machine) :
  (exists msg : string,
     _parse_input user_input = Raise (ValueError msg)
     /\ _handle_calculation_input user_input m
        = prints [ "Input error: " +:+ msg;
                   "Please use format: <number> <operation> <number>";
                   "Example: 5 + 3" ] m)
  \/ (exists (a b : float) (operation_str : string),
       _parse_input user_input = Return (a, operation_str, b)
       /\ Operations.dict_get Operations.OPERATIONS operation_str = Some Division
       /\ Float.eqb b Float.zero = true
       /\ _handle_calculation_input user_input m
          = print "Math error: Cannot divide by zero" m)
  \/ (exists (a b : float) (operation_str : string) (op : Operation) (r : float),
       _parse_input user_input = Return (a, operation_str, b)
       /\ Operations.dict_get Operations.OPERATIONS operation_str = Some op
       /\ Operations.compute op a b = Return r
       /\ _handle_calculation_input user_input m
          = print ("Result: "
                   +:+ shown (computed a b op r) (Operations.symbol op) r)
              (set_heap (recorded m (computed a b op r)) m)).
Proof.
  destruct (_parse_input user_input) as [[[a operation_str] b]|e] eqn:Hparse.
  - destruct (parsed_operator_known _ _ _ _ Hparse) as [op Hop].
    destruct (Operations.compute op a b) as [r|e] eqn:Hr.
    + right. right. exists a, b, operation_str, op, r.
      repeat split; try done.
      by apply (calculation_recorded user_input m a b operation_str op r).
    + right. left. exists a, b, operation_str.
      destruct op; try discriminate Hr. simpl in Hr.
      rewrite Division_compute_eq in Hr.
      destruct (Float.eqb b Float.zero) eqn:Hb; [|discriminate Hr].
      repeat split; try done.
      unfold _handle_calculation_input, calculation_input_body.
      by rewrite Hparse, divide_by_zero_discarded.
  - left. destruct (parse_raises_value_error _ _ Hparse) as [msg ->].
    exists msg. split; [done|].
    unfold _handle_calculation_input, calculation_input_body. by rewrite Hparse.
Qed.

(** *** The calculator object across a turn *)

Lemma self_prints (lines : list string) (m : machine) :
  self (prints lines m) = self m.
Proof. apply heap_prints. Qed.

Lemma display_entries_self (entries : list loc) :
  forall (i : nat) (m : machine), self (display_entries i entries m).2 = self m.
Proof.
  induction entries as [|l entries IH]; intros i m; [done|]. simpl.
  destruct (str_at l (heap m)) as [[text|e] σ']; [|done].
  by rewrite IH.
Qed.

Lemma display_history_self (m : machine) :
  self (_display_history m).2 = self m.
Proof.
  unfold _display_history.
  destruct (negb (History.__bool__ (history (self m)) (heap m))); [done|].
  set (m1 := prints _ m).
  destruct (History.get_history (history (self m1)) (heap m1)) as [copy σ'].
  pose proof (display_entries_self (Store.list_at (heap (set_heap σ' m1)) copy)
                1 (set_heap σ' m1)) as Hself.
  destruct (display_entries 1 _ (set_heap σ' m1)) as [[[]|e] m'];
    simpl in *; by rewrite Hself.
Qed.

Lemma calculation_input_self (user_input : string) (m : machine) :
  self (_handle_calculation_input user_input m) = self m.
Proof.
  destruct (calculation_line_cases user_input m)
    as [(msg & _ & ->) | [(a & b & op & _ & _ & _ & ->)
                         | (a & b & os & op & r & _ & _ & _ & ->)]];
    [apply self_prints | done | done].
Qed.

Lemma handle_command_self (command : string) (m : machine) :
  history (self (_handle_command command m).2) = history (self m)
  /\ (command <> "exit" -> command <> "quit" ->
      self (_handle_command command m).2 = self m).
Proof.
  unfold _handle_command.
  destruct (String.eqb command "exit") eqn:Hexit.
  { apply String.eqb_eq in Hexit. split; [done|]. by intros Hne. }
  destruct (String.eqb command "quit") eqn:Hquit.
  { apply String.eqb_eq in Hquit. split; [done|]. by intros _ Hne. }
  cbn [orb].
  destruct (String.eqb command "help").
  { unfold _display_help. cbn [snd]. by rewrite self_prints. }
  destruct (String.eqb command "history"); [by rewrite display_history_self|].
  by destruct (String.eqb command "clear").
Qed.

Lemma turn_cases (text : string) (m : machine) :
  turn text m = m
  \/ turn text m = _handle_calculation_input (Str.strip text) m
  \/ (turn text m = (_handle_command (Str.lower (Str.strip text)) m).2
      /\ (_handle_command (Str.lower (Str.strip text)) m).1 = Return ())
  \/ (exists e m',
       self m' = self m /\ heap m' = heap m
       /\ turn text m
          = prints [ "Unexpected error: " +:+ exn_str e;
                     "Please try again or type 'help' for assistance." ] m')
  \/ (exists e,
       (_handle_command (Str.lower (Str.strip text)) m).1 = Raise e
       /\ turn text m
          = prints [ "Unexpected error: " +:+ exn_str e;
                     "Please try again or type 'help' for assistance." ]
              (_handle_command (Str.lower (Str.strip text)) m).2).
Proof.
  destruct (decide (Str.strip text = EmptyString)) as [Hempty|Hne].
  { left. unfold turn. by rewrite Hempty. }
  rewrite (turn_nonempty text m Hne). unfold turn_body.
  destruct (_is_command (Str.strip text)) as [[]|e].
  - destruct (_handle_command (Str.lower (Str.strip text)) m) as [[[]|e] m'].
    + right. right. left. done.
    + right. right. right. right. by exists e.
  - right. left. done.
  - right. right. right. left. by exists e, m.
Qed.

(** *** The history stays ready *)

Lemma ready_same (m m' : machine) :
  heap m' = heap m -> self m' = self m -> ready m -> ready m'.
Proof. unfold ready. by intros -> ->. Qed.

Lemma ready_prints (lines : list string) (m : machine) :
  ready m -> ready (prints lines m).
Proof. apply ready_same; apply heap_prints. Qed.

Lemma settled_recorded (m : machine) (c : Calculation) (l : loc) :
  settled (heap m) l -> settled (recorded m c) l.
Proof.
  intros (c' & sym & r & Hc' & Hsym & Hr). exists c', sym, r.
  split; [|done]. unfold recorded. simpl. rewrite lookup_insert_ne; [done|].
  intros Heq. pose proof (is_fresh (dom (calcs (heap m)))) as Hfresh.
  rewrite Heq in Hfresh. apply Hfresh, elem_of_dom. by eexists.
Qed.

Lemma ready_recorded (m : machine) (a b : float) (op : Operation) (r : float)
    (line : string) :
  ready m -> ready (print line (set_heap (recorded m (computed a b op r)) m)).
Proof.
  intros [Hlist Hall]. unfold ready. cbn [heap self print write set_heap].
  split.
  - unfold recorded. simpl. rewrite lookup_insert_eq. by eexists.
  - unfold recorded at 2. rewrite list_at_set_list. apply Forall_app. split.
    + eapply Forall_impl; [exact Hall|]. intros l. apply settled_recorded.
    + apply Forall_singleton.
      exists (computed a b op r), (Operations.symbol op), r.
      split; [|split; [by destruct op | done]].
      unfold recorded. simpl. by rewrite lookup_insert_eq.
Qed.

Lemma calculation_input_ready (user_input : string) (m : machine) :
  ready m -> ready (_handle_calculation_input user_input m).
Proof.
  intros Hm.
  destruct (calculation_line_cases user_input m)
    as [(msg & _ & ->) | [(a & b & op & _ & _ & _ & ->)
                         | (a & b & os & op & r & _ & _ & _ & ->)]].
  - by apply ready_prints.
  - by apply (ready_same m).
  - by apply ready_recorded.
Qed.

Lemma display_history_value (m : machine) :
  Forall (settled (heap m))
    (Store.list_at (heap m) (_history (history (self m)))) ->
  _display_history m
  = if History.__bool__ (history (self m)) (heap m) then
      (Return (),
       print (rule 30)
         (prints (numbered (heap m) 1
                    (Store.list_at (heap m) (_history (history (self m)))))
            (set_heap (History.get_history (history (self m)) (heap m)).2
               (prints [nl +:+ rule 30; "CALCULATION HISTORY"; rule 30] m))))
    else (Return (), print "No calculations in history." m).
Proof.
  intros Hall. unfold _display_history.
  destruct (History.__bool__ (history (self m)) (heap m)); [|done]. simpl negb.
  cbv iota.
  set (m1 := prints _ m).
  assert (Hm1 : heap m1 = heap m /\ self m1 = self m) by apply heap_prints.
  destruct Hm1 as [Hheap Hself]. rewrite Hself, Hheap.
  destruct (History.get_history (history (self m)) (heap m)) as [copy σ'] eqn:Hget.
  assert (Hcontents : Store.list_at σ' copy
                      = Store.list_at (heap m) (_history (history (self m)))).
  { pose proof (get_history_contents (history (self m)) (heap m)) as Hgc.
    by rewrite Hget in Hgc. }
  assert (Hcalcs : calcs σ' = calcs (heap m)).
  { pose proof (get_history_calcs (history (self m)) (heap m)) as Hgc.
    by rewrite Hget in Hgc. }
  cbn [heap set_heap snd]. rewrite Hcontents.
  rewrite display_entries_settled.
  - cbn [heap set_heap]. by rewrite (numbered_same_calcs σ' (heap m)).
  - cbn [heap set_heap]. eapply Forall_impl; [exact Hall|].
    intros l (c & sym & r & Hc & Hsym & Hr). exists c, sym, r.
    by rewrite Hcalcs.
Qed.

Lemma display_history_ready (m : machine) :
  ready m ->
  (_display_history m).1 = Return () /\ ready (_display_history m).2.
Proof.
  intros [Hlist Hall]. rewrite (display_history_value m Hall).
  destruct (History.__bool__ (history (self m)) (heap m)).
  - split; [done|]. cbn [snd]. unfold ready.
    cbn [heap self print write]. rewrite !(proj1 (heap_prints _ _)), !self_prints.
    cbn [heap self set_heap]. rewrite self_prints.
    split.
    + unfold History.get_history, Store.alloc_list. simpl.
      rewrite lookup_insert_ne; [done|]. intros Heq.
      pose proof (is_fresh (dom (lists (heap m)))) as Hfresh.
      rewrite Heq in Hfresh. by apply Hfresh, elem_of_dom.
    + rewrite get_history_keeps by done.
      eapply Forall_impl; [exact Hall|]. by intros l Hl.
  - split; [done|]. by apply (ready_same m).
Qed.

Lemma handle_command_ready (command : string) (m : machine) :
  ready m ->
  (_handle_command command m).1 = Return ()
  /\ ready (_handle_command command m).2.
Proof.
  intros Hm. unfold _handle_command.
  destruct (String.eqb command "exit" || String.eqb command "quit").
  { split; [done|]. destruct Hm. by split. }
  destruct (String.eqb command "help").
  { split; [done|]. by apply ready_prints. }
  destruct (String.eqb command "history").
  { by apply display_history_ready. }
  destruct (String.eqb command "clear"); [|done].
  split; [done|]. unfold ready, _clear_history, History.clear_history.
  cbn [snd heap self print write set_heap]. rewrite list_at_set_list. split.
  - simpl. rewrite lookup_insert_eq. by eexists.
  - constructor.
Qed.

Lemma is_command_returns (text : string) :
  Str.strip text <> EmptyString ->
  exists flag : bool, _is_command (Str.strip text) = Return flag.
Proof.
  intros Hne. unfold _is_command, first_token.
  pose proof (split_strip_nonempty text Hne) as Hsplit.
  destruct (Str.split (Str.strip text)); [done|]. by eexists.
Qed.

Lemma turn_body_ready (text : string) (m : machine) :
  ready m -> Str.strip text <> EmptyString ->
  (turn_body (Str.strip text) m).1 = Return ()
  /\ ready (turn_body (Str.strip text) m).2.
Proof.
  intros Hm Hne. unfold turn_body.
  destruct (is_command_returns text Hne) as [[] ->].
  - by apply handle_command_ready.
  - split; [done|]. by apply calculation_input_ready.
Qed.

Lemma turn_ready (text : string) (m : machine) :
  ready m -> ready (turn text m).
Proof.
  intros Hm.
  destruct (decide (Str.strip text = EmptyString)) as [Hempty|Hne].
  { unfold turn. by rewrite Hempty. }
  rewrite (turn_nonempty text m Hne).
  destruct (turn_body_ready text m Hm Hne) as [Hret Hready].
  destruct (turn_body (Str.strip text) m) as [[[]|e] m']; [done|discriminate Hret].
Qed.

Lemma loop_ready (stdin : list stdin_event) :
  forall m : machine, ready m -> ready (loop stdin m).
Proof.
  induction stdin as [|event stdin IH]; intros m Hm; simpl.
  - by destruct (running (self m)).
  - destruct (running (self m)); [|done].
    destruct event; [|done|done]. apply IH. by apply turn_ready.
Qed.

Lemma init_ready (σ : store) : ready (Calculator_init σ).
Proof.
  unfold ready, Calculator_init, History.__init__. simpl.
  rewrite list_at_set_list. split; [|constructor].
  rewrite lookup_insert_eq. by eexists.
Qed.

Lemma ready_same_history (m m' : machine) :
  heap m' = heap m -> history (self m') = history (self m) ->
  ready m -> ready m'.
Proof. unfold ready. by intros -> ->. Qed.

Lemma run_ready (stdin : list stdin_event) (m : machine) :
  ready m -> ready (run stdin m).
Proof.
  intros Hm. unfold run, _display_welcome.
  apply loop_ready, ready_prints. by apply (ready_same_history m).
Qed.

Lemma turn_history (text : string) (m : machine) :
  history (self (turn text m)) = history (self m).
Proof.
  destruct (turn_cases text m)
    as [-> | [-> | [[-> _] | [(e & m' & Hself & _ & ->) | (e & _ & ->)]]]].
  - done.
  - by rewrite calculation_input_self.
  - apply handle_command_self.
  - by rewrite self_prints, Hself.
  - rewrite self_prints. apply handle_command_self.
Qed.

Lemma turn_keeps_self (text : string) (m : machine) :
  Str.lower (Str.strip text) <> "exit" ->
  Str.lower (Str.strip text) <> "quit" ->
  self (turn text m) = self m.
Proof.
  intros Hexit Hquit.
  destruct (turn_cases text m)
    as [-> | [-> | [[-> _] | [(e & m' & Hself & _ & ->) | (e & _ & ->)]]]].
  - done.
  - apply calculation_input_self.
  - by apply handle_command_self.
  - by rewrite self_prints.
  - rewrite self_prints. by apply handle_command_self.
Qed.

Lemma turn_exit (text : string) (m : machine) :
  Str.lower (Str.strip text) = "exit" \/ Str.lower (Str.strip text) = "quit" ->
  turn text m = set_running false (print "Goodbye!" m).
Proof.
  intros [Hcmd|Hcmd];
    rewrite (exact_command_dispatched text _ m Hcmd); try reflexivity;
    simpl; tauto.
Qed.

Lemma loop_lines (texts : list string) (rest : list stdin_event) :
  forall m : machine,
    running (self m) = true ->
    Forall (fun text => Str.lower (Str.strip text) <> "exit"
                        /\ Str.lower (Str.strip text) <> "quit") texts ->
    loop ((Line <$> texts) ++ rest) m = loop rest (foldl prompted_turn m texts)
    /\ running (self (foldl prompted_turn m texts)) = true.
Proof.
  induction texts as [|text texts IH]; intros m Hrun Hall; [done|].
  apply Forall_cons in Hall as [[Hexit Hquit] Hall].
  assert (Hnext : running (self (prompted_turn m text)) = true).
  { unfold prompted_turn. by rewrite turn_keeps_self. }
  simpl. rewrite Hrun. fold (prompted_turn m text). by apply IH.
Qed.

(** A line that is not a command and that validates, with an operation
    that returns a value, adds exactly one calculation to the store and to
    the end of the history, with its result already stored, and prints
    the one line "Result: a symbol b = result"; every object that was in
    the store is left as it was. *)
Theorem successful_line_recorded (text : string) (m : machine) (a b : float)
    (operation_str : string) (op : Operation) (r : float) :
  _is_command (Str.strip text) = Return false ->
  _parse_input (Str.strip text) = Return (a, operation_str, b) ->
  Operations.dict_get Operations.OPERATIONS operation_str = Some op ->
  Operations.compute op a b = Return r ->
  let l := fresh (dom (calcs (heap m))) in
  let c := {| operand_a := a; operand_b := b;
              operation := Operations.instance op; _result := Some r |} in
  Store.list_at (heap (turn text m)) (_history (history (self m)))
  = Store.list_at (heap m) (_history (history (self m))) ++ [l]
  /\ History.get_last_calculation (history (self m)) (heap (turn text m)) = Some l
  /\ calcs (heap m) !! l = None
  /\ calcs (heap (turn text m)) !! l = Some c
  /\ (forall l' : loc, l' <> l ->
       calcs (heap (turn text m)) !! l' = calcs (heap m) !! l')
  /\ stdout (turn text m)
     = stdout m
       ++ [Print ("Result: " +:+ str_of_float a +:+ " " +:+ Operations.symbol op
                  +:+ " " +:+ str_of_float b +:+ " = " +:+ str_of_float r)]
  /\ self (turn text m) = self m.
Proof.
  intros Hcmd Hparse Hop Hr l c.
  assert (Hturn : turn text m
    = print ("Result: " +:+ shown (computed a b op r) (Operations.symbol op) r)
        (set_heap (recorded m (computed a b op r)) m)).
  { rewrite turn_nonempty by (by eapply parsed_nonempty).
    unfold turn_body. rewrite Hcmd. cbn [snd].
    by apply (calculation_recorded _ m a b operation_str op r). }
  rewrite Hturn. cbn [heap self stdout print write set_heap].
  assert (Hlist : Store.list_at (recorded m (computed a b op r))
                    (_history (history (self m)))
                  = Store.list_at (heap m) (_history (history (self m))) ++ [l]).
  { unfold recorded. by rewrite list_at_set_list. }
  split; [exact Hlist|]. split.
  { unfold History.get_last_calculation. rewrite Hlist. apply last_snoc. }
  split; [apply not_elem_of_dom, is_fresh|].
  split; [unfold recorded; simpl; by rewrite lookup_insert_eq|].
  split; [|done].
  intros l' Hl'. unfold recorded. simpl. by rewrite lookup_insert_ne.
Qed.

(** A line that is not a command ends in one of three ways and no other:
    an input error in three lines, the math error in one, or the result
    in one with the history one entry longer.  The two catch-all handlers
    of [_perform_calculation] and [_handle_calculation_input] are never
    reached. *)
Theorem calculation_line_outcomes (text : string) (m : machine) :
  _is_command (Str.strip text) = Return false ->
  (exists msg : string,
     stdout (turn text m)
     = stdout m ++ [ Print ("Input error: " +:+ msg);
                     Print "Please use format: <number> <operation> <number>";
                     Print "Example: 5 + 3" ]
     /\ heap (turn text m) = heap m /\ self (turn text m) = self m)
  \/ (stdout (turn text m)
      = stdout m ++ [Print "Math error: Cannot divide by zero"]
      /\ heap (turn text m) = heap m /\ self (turn text m) = self m)
  \/ (exists shown_text : string,
       stdout (turn text m) = stdout m ++ [Print ("Result: " +:+ shown_text)]
       /\ History.__len__ (history (self m)) (heap (turn text m))
          = S (History.__len__ (history (self m)) (heap m))
       /\ self (turn text m) = self m).
Proof.
  intros Hcmd.
  assert (Hne : Str.strip text <> EmptyString).
  { intros Hempty. by rewrite Hempty in Hcmd. }
  assert (Hturn : turn text m = _handle_calculation_input (Str.strip text) m).
  { rewrite turn_nonempty by done. unfold turn_body. by rewrite Hcmd. }
  rewrite Hturn.
  destruct (calculation_line_cases (Str.strip text) m)
    as [(msg & _ & ->) | [(a & b & os & _ & _ & _ & ->)
                         | (a & b & os & op & r & _ & _ & _ & ->)]].
  - left. exists msg. rewrite stdout_prints.
    by rewrite (proj1 (heap_prints _ _)), self_prints.
  - right. left. done.
  - right. right. eexists. split; [reflexivity|]. split; [|done].
    unfold History.__len__, recorded. cbn [heap print write set_heap].
    rewrite list_at_set_list, length_app. simpl. lia.
Qed.

(** A new calculator is ready (its history exists and every entry has its
    result stored and an operation with a symbol), and a turn, the loop
    and a whole run keep a ready calculator ready: whatever is typed,
    every entry of the history can be displayed. *)
Theorem history_stays_ready :
  (forall σ : store, ready (Calculator_init σ))
  /\ (forall (text : string) (m : machine), ready m -> ready (turn text m))
  /\ (forall (stdin : list stdin_event) (m : machine),
       ready m -> ready (loop stdin m))
  /\ (forall (stdin : list stdin_event) (σ : store),
       ready (run stdin (Calculator_init σ))).
Proof.
  split; [apply init_ready|]. split; [apply turn_ready|].
  split; [apply loop_ready|]. intros stdin σ. apply run_ready, init_ready.
Qed.

(** On a ready calculator the body of a turn returns normally on every
    line: the handler of [run] for unexpected errors is not reached, and
    nothing it prints appears. *)
Theorem turn_reports_no_unexpected_error (text : string) (m : machine) :
  ready m ->
  (Str.strip text = EmptyString /\ turn text m = m)
  \/ (Str.strip text <> EmptyString
      /\ (turn_body (Str.strip text) m).1 = Return ()
      /\ turn text m = (turn_body (Str.strip text) m).2).
Proof.
  intros Hm.
  destruct (decide (Str.strip text = EmptyString)) as [Hempty|Hne].
  - left. split; [done|]. unfold turn. by rewrite Hempty.
  - right. split; [done|].
    destruct (turn_body_ready text m Hm Hne) as [Hret _].
    split; [done|]. rewrite turn_nonempty by done.
    destruct (turn_body (Str.strip text) m) as [[[]|e] m'];
      [done | discriminate Hret].
Qed.

(** A turn never replaces the history object, and it changes [running]
    only on a line that is [exit] or [quit] (in any case, with any
    padding), where it sets it to false. *)
Theorem only_exit_stops (text : string) (m : machine) :
  history (self (turn text m)) = history (self m)
  /\ (Str.lower (Str.strip text) <> "exit" ->
      Str.lower (Str.strip text) <> "quit" ->
      self (turn text m) = self m)
  /\ (Str.lower (Str.strip text) = "exit" \/ Str.lower (Str.strip text) = "quit" ->
      running (self (turn text m)) = false
      /\ stdout (turn text m) = stdout m ++ [Print "Goodbye!"]
      /\ heap (turn text m) = heap m).
Proof.
  split; [apply turn_history|]. split; [apply turn_keeps_self|].
  intros Hcmd. by rewrite (turn_exit text m Hcmd).
Qed.

(** The loop takes the lines in order, one prompt and one turn each, as
    long as none is [exit] or [quit]; at the first such line it says
    goodbye and reads nothing of what follows; when the input ends or is
    interrupted it prints the farewell and stops with [running] still
    true. *)
Theorem lines_before_exit (texts : list string) (rest : list stdin_event)
    (m : machine) :
  running (self m) = true ->
  Forall (fun text => Str.lower (Str.strip text) <> "exit"
                      /\ Str.lower (Str.strip text) <> "quit") texts ->
  let m' := foldl prompted_turn m texts in
  loop ((Line <$> texts) ++ rest) m = loop rest m'
  /\ running (self m') = true
  /\ (forall last : string,
       Str.lower (Str.strip last) = "exit" \/ Str.lower (Str.strip last) = "quit" ->
       loop ((Line <$> texts) ++ Line last :: rest) m
       = set_running false
           (print "Goodbye!" (write (Prompt (nl +:+ "Calculator> ")) m')))
  /\ (forall stop : stdin_event,
       stop = EndOfInput \/ stop = Interrupt ->
       loop ((Line <$> texts) ++ stop :: rest) m
       = print farewell (write (Prompt (nl +:+ "Calculator> ")) m'))
  /\ loop (Line <$> texts) m
     = print farewell (write (Prompt (nl +:+ "Calculator> ")) m').
Proof.
  intros Hrun Hall m'. subst m'.
  destruct (loop_lines texts rest m Hrun Hall) as [Hloop Hrun'].
  split; [exact Hloop|]. split; [exact Hrun'|]. split; [|split].
  - intros last Hlast.
    rewrite (proj1 (loop_lines texts (Line last :: rest) m Hrun Hall)).
    simpl. rewrite Hrun'. rewrite (turn_exit last _ Hlast).
    by destruct rest.
  - intros stop Hstop.
    rewrite (proj1 (loop_lines texts (stop :: rest) m Hrun Hall)).
    simpl. rewrite Hrun'. by destruct Hstop as [-> | ->].
  - rewrite <- (app_nil_r (Line <$> texts)).
    rewrite (proj1 (loop_lines texts [] m Hrun Hall)).
    simpl. by rewrite Hrun'.
Qed.

(** A line is blank, that is empty once trimmed, exactly when it is made
    of whitespace only, and a turn on a blank line changes nothing: no
    output, no entry, no change of state. *)
Theorem blank_line_ignored (text : string) (m : machine) :
  (Str.strip text = EmptyString <-> Str.all_space text = true)
  /\ (Str.all_space text = true ->
      turn text m = m
      /\ prompted_turn m text = write (Prompt (nl +:+ "Calculator> ")) m).
Proof.
  split; [apply strip_empty_iff|]. intros Hblank.
  apply strip_empty_iff in Hblank.
  unfold prompted_turn, turn. by rewrite Hblank.
Qed.

End Further.

(** * The properties at concrete input *)

Section Concrete.
Import Examples.
Existing Instance Runtime.python.

Lemma result_computed_once_witness :
  Calc.result {| operand_a := six; operand_b := three;
                  operation := Operations.instance Division; _result := None |}
  = (Return two,
     {| operand_a := six; operand_b := three;
        operation := Operations.instance Division; _result := Some two |})
  /\ Calc.result
       {| operand_a := six; operand_b := three; operation := PNone;
          _result := Some two |}
     = (Return two,
        {| operand_a := six; operand_b := three; operation := PNone;
           _result := Some two |}).
Proof.
  destruct (result_computed_once
              {| operand_a := six; operand_b := three;
                 operation := Operations.instance Division; _result := None |}
              (Operations.compute Division) two) as (Hfirst & Hlater & _).
  - reflexivity.
  - reflexivity.
  - vm_compute. reflexivity.
  - split; [exact Hfirst | exact (Hlater PNone)].
Defined.

Lemma create_calculation_bools_witness :
  is_int_or_float (PBool true) = true
  /\ is_int_or_float (PBool false) = true
  /\ create_calculation (PBool true) (PBool false) (Operations.instance Addition)
     = Return {| operand_a := Float.one; operand_b := Float.zero;
                 operation := Operations.instance Addition; _result := None |}.
Proof.
  apply (create_calculation_bools (Operations.instance Addition)).
  - eexists. reflexivity.
  - eexists. reflexivity.
Defined.

Lemma division_by_zero_leaves_history_witness :
  turn "5 / 0" after_two_lines
  = print "Math error: Cannot divide by zero" after_two_lines
  /\ heap (turn "5 / 0" after_two_lines) = heap after_two_lines
  /\ self (turn "5 / 0" after_two_lines) = self after_two_lines
  /\ Store.list_at (heap (turn "5 / 0" after_two_lines))
       (_history (history (self (turn "5 / 0" after_two_lines))))
     = Store.list_at (heap after_two_lines)
         (_history (history (self after_two_lines)))
  /\ stdout (turn "5 / 0" after_two_lines)
     = stdout after_two_lines ++ [Print "Math error: Cannot divide by zero"].
Proof.
  apply (division_by_zero_leaves_history "5 / 0" after_two_lines
           five Float.zero "/").
  - vm_compute. reflexivity.
  - vm_compute. reflexivity.
  - vm_compute. reflexivity.
  - vm_compute. reflexivity.
Defined.

Lemma get_history_independent_copy_witness :
  let self_history := history (self after_two_lines) in
  let σN := History.add_all self_history [PCalculation 2%positive]
              (heap after_two_lines) in
  Store.list_at (History.get_history self_history σN).2
                (History.get_history self_history σN).1
  = [1; 2; 2]%positive
  /\ (History.get_history self_history σN).1 <> _history self_history
  /\ Store.list_at
       (History.get_history self_history
          (Store.set_list (History.get_history self_history σN).2
             (History.get_history self_history σN).1 [])).2
       (History.get_history self_history
          (Store.set_list (History.get_history self_history σN).2
             (History.get_history self_history σN).1 [])).1
     = [1; 2; 2]%positive.
Proof.
  intros self_history σN.
  destruct (get_history_independent_copy self_history (heap after_two_lines)
              [2%positive]) as (Hcopy & _ & _ & Hnew & Hkept & _).
  - exists [1; 2]%positive. reflexivity.
  - split; [exact Hcopy|]. split; [exact Hnew|]. exact (proj2 (Hkept [])).
Defined.

Lemma get_history_shares_calculations_witness :
  let self_history := history (self after_two_lines) in
  let c := {| operand_a := six; operand_b := three;
              operation := Operations.instance Division; _result := Some two |} in
  let σ1 := (History.get_history self_history (heap after_two_lines)).2 in
  let σ2 := Store.set_calc σ1 2%positive (Calc.set_result c (Some eight)) in
  Store.list_at σ1 (History.get_history self_history (heap after_two_lines)).1
    !! 1%nat = Some 2%positive
  /\ calcs (History.get_history self_history σ2).2 !! 2%positive
     = Some (Calc.set_result c (Some eight))
  /\ str_at 2%positive σ2 = (Return "6.0 / 3.0 = 8.0", σ2).
Proof.
  intros self_history c σ1 σ2.
  destruct (get_history_shares_calculations after_two_lines 1 2%positive c
              "/" eight) as (Hcopy & _ & _ & _ & Hlater & Hstr & _).
  - reflexivity.
  - reflexivity.
  - reflexivity.
  - split; [exact Hcopy|]. split; [exact Hlater|]. exact Hstr.
Defined.

(** The scenarios of the specification. *)

Example scenario_addition :
  stdout (turn "5 + 3" fresh_calculator) = [Print "Result: 5.0 + 3.0 = 8.0"]
  /\ History.__len__ (history (self fresh_calculator)) (heap fresh_calculator) = 0%nat
  /\ History.__len__ (history (self fresh_calculator))
       (heap (turn "5 + 3" fresh_calculator)) = 1%nat.
Proof. split; [by vm_compute|]. split; by vm_compute. Qed.

Example scenario_unknown_operator :
  stdout (turn "5 %% 3" fresh_calculator)
  = [ Print "Input error: Unsupported operation: %%. Available: *, +, -, /, add, addition, div, divide, division, mul, multiplication, multiply, sub, subtract, subtraction";
      Print "Please use format: <number> <operation> <number>";
      Print "Example: 5 + 3" ]
  /\ History.__len__ (history (self fresh_calculator))
       (heap (turn "5 %% 3" fresh_calculator)) = 0%nat.
Proof. split; by vm_compute. Qed.

Example scenario_session :
  let final := run [Line "5 + 3"; Line "history"; Line "clear"; Line "history";
                    Line "exit"; Line "1 + 1"] fresh_calculator in
  running (self final) = false
  /\ History.__len__ (history (self final)) (heap final) = 0%nat
  /\ stdout final
     = (Print <$> welcome_text)
       ++ [ Prompt (nl +:+ "Calculator> "); Print "Result: 5.0 + 3.0 = 8.0";
            Prompt (nl +:+ "Calculator> ");
            Print (nl +:+ rule 30); Print "CALCULATION HISTORY"; Print (rule 30);
            Print " 1. 5.0 + 3.0 = 8.0"; Print (rule 30);
            Prompt (nl +:+ "Calculator> "); Print "Calculation history cleared.";
            Prompt (nl +:+ "Calculator> "); Print "No calculations in history.";
            Prompt (nl +:+ "Calculator> "); Print "Goodbye!" ].
Proof. split; [by vm_compute|]. split; by vm_compute. Qed.

Example scenario_tampered_entry_displayed :
  let self_history := history (self after_two_lines) in
  let c := {| operand_a := six; operand_b := three;
              operation := Operations.instance Division; _result := Some eight |} in
  let σ1 := (History.get_history self_history (heap after_two_lines)).2 in
  let m := set_heap (Store.set_calc σ1 2%positive c) after_two_lines in
  stdout (_display_history after_two_lines).2
  = stdout after_two_lines
    ++ [ Print (nl +:+ rule 30); Print "CALCULATION HISTORY"; Print (rule 30);
         Print " 1. 5.0 + 3.0 = 8.0"; Print " 2. 6.0 / 3.0 = 2.0";
         Print (rule 30) ]
  /\ stdout (_display_history m).2
     = stdout after_two_lines
       ++ [ Print (nl +:+ rule 30); Print "CALCULATION HISTORY"; Print (rule 30);
            Print " 1. 5.0 + 3.0 = 8.0"; Print " 2. 6.0 / 3.0 = 8.0";
            Print (rule 30) ].
Proof. split; by vm_compute. Qed.

Lemma zero_division_raised_on_each_read_witness :
  create_calculation (PFloat five) (PFloat Float.zero) (Operations.instance Division)
  = Return {| operand_a := five; operand_b := Float.zero;
              operation := Operations.instance Division; _result := None |}
  /\ Calc.result {| operand_a := five; operand_b := Float.zero;
                    operation := Operations.instance Division; _result := None |}
     = (Raise (ZeroDivisionError "Cannot divide by zero"),
        {| operand_a := five; operand_b := Float.zero;
           operation := Operations.instance Division; _result := None |}).
Proof.
  destruct (zero_division_raised_on_each_read five Float.zero)
    as (Hmade & Hread & _).
  - reflexivity.
  - split; [exact Hmade | exact Hread].
Defined.

Lemma str_computes_and_caches_witness :
  Calculation_str {| operand_a := six; operand_b := three;
                     operation := Operations.instance Division; _result := None |}
  = (Return "6.0 / 3.0 = 2.0",
     {| operand_a := six; operand_b := three;
        operation := Operations.instance Division; _result := Some two |})
  /\ Calculation_repr
       {| operand_a := six; operand_b := three;
          operation := Operations.instance Division; _result := None |}
     = "Calculation(operand_a=6.0, operand_b=3.0, operation=Division, result=None)".
Proof.
  destruct (str_computes_and_caches
              {| operand_a := six; operand_b := three;
                 operation := Operations.instance Division; _result := None |}
              (Operations.compute Division) "/" two)
    as (Hstr & _ & Hrepr & _).
  - reflexivity.
  - reflexivity.
  - reflexivity.
  - vm_compute. reflexivity.
  - split; [exact Hstr | exact Hrepr].
Defined.

Lemma clear_history_keeps_copies_witness :
  let self_history := history (self after_two_lines) in
  let σ1 := (History.get_history self_history (heap after_two_lines)).2 in
  History.__len__ self_history (History.clear_history self_history σ1) = 0%nat
  /\ Store.list_at (History.clear_history self_history σ1)
       (History.get_history self_history (heap after_two_lines)).1
     = Store.list_at (heap after_two_lines) (_history self_history).
Proof.
  intros self_history σ1.
  destruct (clear_history_keeps_copies self_history (heap after_two_lines))
    as (Hlen & _ & _ & _ & Hcopy & _).
  - exists [1; 2]%positive. reflexivity.
  - split; [exact Hlen | exact Hcopy].
Defined.

Lemma histories_do_not_interfere_witness :
  let self_history := history (self after_two_lines) in
  let other := (History.__init__ (heap after_two_lines)).1 in
  let σ' := (History.__init__ (heap after_two_lines)).2 in
  _history other <> _history self_history
  /\ Store.list_at (History.add_calculation other (PCalculation 1%positive) σ').2
       (_history self_history)
     = Store.list_at (heap after_two_lines) (_history self_history).
Proof.
  intros self_history other σ'.
  destruct (histories_do_not_interfere self_history (heap after_two_lines))
    as (Hnew & _ & _ & Hadd & _).
  - exists [1; 2]%positive. reflexivity.
  - split; [exact Hnew | exact (Hadd (PCalculation 1%positive))].
Defined.

Lemma successful_line_recorded_witness :
  Store.list_at (heap (turn " 6 DIV 3 " after_two_lines))
    (_history (history (self after_two_lines)))
  = Store.list_at (heap after_two_lines)
      (_history (history (self after_two_lines)))
    ++ [fresh (dom (calcs (heap after_two_lines)))]
  /\ stdout (turn " 6 DIV 3 " after_two_lines)
     = stdout after_two_lines
       ++ [Print ("Result: " +:+ str_of_float six +:+ " " +:+ "/" +:+ " "
                  +:+ str_of_float three +:+ " = " +:+ str_of_float two)].
Proof.
  destruct (successful_line_recorded " 6 DIV 3 " after_two_lines six three
              "div" Division two) as (Hlist & _ & _ & _ & _ & Hout & _).
  - vm_compute. reflexivity.
  - vm_compute. reflexivity.
  - vm_compute. reflexivity.
  - vm_compute. reflexivity.
  - split; [exact Hlist | exact Hout].
Defined.

Lemma calculation_line_outcomes_witness :
  (exists msg : string,
     stdout (turn "5 / 0" after_two_lines)
     = stdout after_two_lines
       ++ [ Print ("Input error: " +:+ msg);
            Print "Please use format: <number> <operation> <number>";
            Print "Example: 5 + 3" ]
     /\ heap (turn "5 / 0" after_two_lines) = heap after_two_lines
     /\ self (turn "5 / 0" after_two_lines) = self after_two_lines)
  \/ (stdout (turn "5 / 0" after_two_lines)
      = stdout after_two_lines ++ [Print "Math error: Cannot divide by zero"]
      /\ heap (turn "5 / 0" after_two_lines) = heap after_two_lines
      /\ self (turn "5 / 0" after_two_lines) = self after_two_lines)
  \/ (exists shown_text : string,
       stdout (turn "5 / 0" after_two_lines)
       = stdout after_two_lines ++ [Print ("Result: " +:+ shown_text)]
       /\ History.__len__ (history (self after_two_lines))
            (heap (turn "5 / 0" after_two_lines))
          = S (History.__len__ (history (self after_two_lines))
                 (heap after_two_lines))
       /\ self (turn "5 / 0" after_two_lines) = self after_two_lines).
Proof.
  apply (calculation_line_outcomes "5 / 0" after_two_lines).
  vm_compute. reflexivity.
Defined.

Lemma turn_reports_no_unexpected_error_witness :
  (Str.strip "history" = EmptyString /\ turn "history" after_two_lines = after_two_lines)
  \/ (Str.strip "history" <> EmptyString
      /\ (turn_body (Str.strip "history") after_two_lines).1 = Return ()
      /\ turn "history" after_two_lines
         = (turn_body (Str.strip "history") after_two_lines).2).
Proof.
  apply (turn_reports_no_unexpected_error "history" after_two_lines).
  split.
  - exists [1; 2]%positive. reflexivity.
  - repeat constructor.
    + eexists _, "+", eight. repeat split; reflexivity.
    + eexists _, "/", two. repeat split; reflexivity.
Defined.

Lemma lines_before_exit_witness :
  loop ((Line <$> ["5 + 3"; "help"]) ++ [Line "QUIT"; Line "1 + 1"])
    (set_running true fresh_calculator)
  = set_running false
      (print "Goodbye!"
         (write (Prompt (nl +:+ "Calculator> "))
            (foldl prompted_turn (set_running true fresh_calculator)
               ["5 + 3"; "help"]))).
Proof.
  destruct (lines_before_exit ["5 + 3"; "help"] [Line "1 + 1"]
              (set_running true fresh_calculator)) as (_ & _ & Hexit & _).
  - reflexivity.
  - repeat constructor; intros Heq; vm_compute in Heq; discriminate Heq.
  - apply (Hexit "QUIT"). right. vm_compute. reflexivity.
Defined.

End Concrete.
